(** * skiWeather: the forecast aggregation pipeline of [build.py]

    A shallow embedding of the data-processing core of [build.py] (the
    utilities, [extract_hourly_period], [process_day], the narrative
    generators, [avy_banner] and the aggregation loop of [main]) together
    with the properties its design document states about them.

    Conventions of the embedding.
    - A Python exception is a value [Raise e] of the error monad [res].
    - A JSON number is an exact rational ([Q]); Python's [round] is
      round-half-to-even on that rational, and the integers it produces are
      [Z]. The rounding of binary64 arithmetic is not part of the general
      definitions; for the two numerical utilities the binary64 evaluation
      is defined as well and compared with the exact one on whole inputs.
    - A Python [str] is a [string] (a byte sequence, UTF-8 for the few
      non-ASCII literals of the program).
    - The bulletin of the avalanche adapter is accessed by the program
      through chains of [dict.get]; it is kept as an untyped [json] value.
      The forecast model payload is accessed by fixed keys and positions; it
      is a record of columns. *)

From Stdlib Require Import ZArith QArith Qround String Ascii List Lia Floats.
From Stdlib Require Import Qabs.
From stdpp Require Import base option list strings gmap pretty.

Local Open Scope string_scope.
Local Open Scope list_scope.
Local Open Scope Z_scope.

(** ** Exceptions and the error monad *)

Inductive exn : Set :=
  | TypeError | ValueError | KeyError | IndexError | AttributeError
  | Unsupported.
(** [Unsupported] is not a Python exception: it marks a value whose Python
    text form ([repr] of a float, a list or a dict inside an f-string) is
    outside the embedding. *)

Inductive res (A : Type) : Type :=
  | Ok (a : A)
  | Raise (e : exn).
Arguments Ok {A} a.
Arguments Raise {A} e.

Global Instance res_ret : MRet res := fun A a => Ok a.
Global Instance res_bind : MBind res := fun A B f m =>
  match m with
  | Ok a => f a
  | Raise e => Raise e
  end.
Global Instance res_fmap : FMap res := fun A B f m =>
  match m with
  | Ok a => Ok (f a)
  | Raise e => Raise e
  end.

Definition is_Ok {A} (m : res A) : Prop := exists a, m = Ok a.

(** [l[i]] on a Python list. *)
Definition idx {A} (l : list A) (i : nat) : res A :=
  match l !! i with
  | Some x => Ok x
  | None => Raise IndexError
  end.

(** [mapM] for the error monad, left to right. *)
Fixpoint res_mapM {A B} (f : A -> res B) (l : list A) : res (list B) :=
  match l with
  | [] => Ok []
  | x :: l' => y ← f x; ys ← res_mapM f l'; Ok (y :: ys)
  end.

(** ** Python numbers *)

(** [round(x)]: nearest integer, ties to the even one. *)
Definition py_round (x : Q) : Z :=
  let f := Qfloor x in
  match Qcompare (x - inject_Z f) (1 # 2) with
  | Lt => f
  | Gt => f + 1
  | Eq => if Z.even f then f else f + 1
  end.

(** [round(x, 1)]: the nearest multiple of one tenth. *)
Definition py_round1 (x : Q) : Q :=
  inject_Z (py_round (x * 10)) / 10.

(** [x % 360] on numbers: the result has the sign of the divisor. *)
Definition py_mod360 (x : Q) : Q :=
  x - 360 * inject_Z (Qfloor (x / 360)).

Definition Qltb (x y : Q) : bool :=
  match Qcompare x y with Lt => true | _ => false end.

Definition Qsum (l : list Q) : Q := foldl Qplus 0%Q l.

(** [max(l)] and [min(l)] of a non-empty list: the first extremal element. *)
Definition Qmax_list (x : Q) (l : list Q) : Q :=
  foldl (fun m y => if Qltb m y then y else m) x l.
Definition Qmin_list (x : Q) (l : list Q) : Q :=
  foldl (fun m y => if Qltb y m then y else m) x l.

(** [l.index(x)]: position of the first element equal ([==]) to [x]. *)
Fixpoint Qindex (x : Q) (l : list Q) : res nat :=
  match l with
  | [] => Raise ValueError
  | y :: l' => if Qeq_bool y x then Ok O else S <$> Qindex x l'
  end.

(** ** Utilities *)

Definition dirs : list string := ["N"; "NE"; "E"; "SE"; "S"; "SW"; "W"; "NW"].

Definition deg_to_compass (deg : option Q) : res string :=
  match deg with
  | None => Ok "--"
  | Some d => idx dirs (Z.to_nat (py_round (py_mod360 d / 45) mod 8))
  end.

Definition WMO_table : list (Z * (string * string)) :=
    [ (0, ("Clear sky", "☀️")); (1, ("Mainly clear", "🌤️"));
      (2, ("Partly cloudy", "⛅")); (3, ("Overcast", "☁️"));
      (45, ("Fog", "🌫️")); (48, ("Rime fog", "🌫️"));
      (51, ("Light drizzle", "🌧️")); (53, ("Drizzle", "🌧️"));
      (55, ("Heavy drizzle", "🌧️"));
      (56, ("Freezing drizzle", "🌧️")); (57, ("Heavy freezing drizzle", "🌧️"));
      (61, ("Light rain", "🌧️")); (63, ("Rain", "🌧️"));
      (65, ("Heavy rain", "🌧️"));
      (66, ("Freezing rain", "🌧️")); (67, ("Heavy freezing rain", "🌧️"));
      (71, ("Light snow", "🌨️")); (73, ("Snow", "🌨️"));
      (75, ("Heavy snow", "🌨️")); (77, ("Snow grains", "🌨️"));
      (80, ("Light showers", "🌦️")); (81, ("Showers", "🌧️"));
      (82, ("Heavy showers", "🌧️"));
      (85, ("Light snow showers", "🌨️")); (86, ("Heavy snow showers", "🌨️"));
      (95, ("Thunderstorm", "⛈️")); (96, ("T-storm + hail", "⛈️"));
      (99, ("Severe t-storm", "⛈️")) ].

Definition WMO : gmap Z (string * string) := list_to_map WMO_table.

(** [d[k]] on a dict: [KeyError] when the key is missing. *)
Definition dict_item `{Countable K} {V} (d : gmap K V) (k : K) : res V :=
  match d !! k with
  | Some v => Ok v
  | None => Raise KeyError
  end.

(** A weather code is a JSON integer or [null]; [None] is hashable and is
    simply not a key of [WMO]. The default [WMO[3]] is evaluated before the
    call of [get], as Python evaluates arguments. *)
Definition wmo_info (code : option Z) : res (string * string) :=
  dflt ← dict_item WMO 3;
  Ok (default dflt (code ≫= fun c => WMO !! c)).

Definition freezing_level (temp_c elev_m : Q) : Z :=
  py_round (elev_m + (temp_c / (65 # 10)) * 1000).

(** *** The same expressions in binary64

    With primitive floats the two numerical utilities can be evaluated as
    CPython evaluates them on integer arguments: the integer is converted,
    each operation rounds to nearest-even, and [round] is exact on the
    resulting double. They are compared with the exact definitions below. *)

Definition b64_exact (f : float) : option Q :=
  match Prim2SF f with
  | S754_zero _ => Some 0%Q
  | S754_finite s m e =>
      Some (inject_Z (if s then Z.neg m else Z.pos m) * Qpower 2 e)%Q
  | _ => None
  end.

Definition b64_of_Z (z : Z) : float :=
  if z <? 0 then PrimFloat.opp (of_uint63 (Uint63.of_Z (- z)))
  else of_uint63 (Uint63.of_Z z).

Definition freezing_level_b64 (temp_c elev_m : Z) : option Z :=
  py_round <$>
    b64_exact (PrimFloat.add (b64_of_Z elev_m)
                 (PrimFloat.mul (PrimFloat.div (b64_of_Z temp_c) 6.5%float)
                    1000%float)).

Definition compass_index_b64 (deg : Z) : option Z :=
  (fun q => py_round q mod 8) <$>
    b64_exact (PrimFloat.div (b64_of_Z (deg mod 360)) 45%float).

(** ** Strings *)

(** [s.split(sep)] for a one-character separator. *)
Fixpoint split_on (sep : ascii) (s : string) : list string :=
  match s with
  | EmptyString => [""]
  | String c s' =>
      if Ascii.eqb c sep then "" :: split_on sep s'
      else match split_on sep s' with
           | [] => [String c ""]
           | w :: ws => String c w :: ws
           end
  end.

(** The ASCII characters for which [str.isspace] holds. *)
Definition is_space (c : ascii) : bool :=
  let n := nat_of_ascii c in
  ((9 <=? n)%nat && (n <=? 13)%nat) || ((28 <=? n)%nat && (n <=? 32)%nat).

Fixpoint lstrip (s : string) : string :=
  match s with
  | String c s' => if is_space c then lstrip s' else s
  | EmptyString => EmptyString
  end.

Definition strip (s : string) : string :=
  String.rev (lstrip (String.rev (lstrip s))).

Definition digit_val (c : ascii) : option Z :=
  let n := nat_of_ascii c in
  if (48 <=? n)%nat && (n <=? 57)%nat then Some (Z.of_nat (n - 48)) else None.

(** Decimal digits, single underscores allowed between two digits. *)
Fixpoint int_digits (s : string) (acc : Z) (after_digit : bool) : option Z :=
  match s with
  | EmptyString => if after_digit then Some acc else None
  | String c s' =>
      match digit_val c with
      | Some d => int_digits s' (10 * acc + d) true
      | None =>
          if Ascii.eqb c "_" && after_digit then int_digits s' acc false
          else None
      end
  end.

(** [int(s)] in base ten, on ASCII text: surrounding whitespace, an
    optional sign, digits. Anything else is a [ValueError]. *)
Definition py_int (s : string) : res Z :=
  let body :=
    match strip s with
    | String "-" r => Z.opp <$> int_digits r 0 false
    | String "+" r => int_digits r 0 false
    | r => int_digits r 0 false
    end in
  match body with
  | Some z => Ok z
  | None => Raise ValueError
  end.

(** [str.title()] on ASCII text: a letter is upper-cased when it follows a
    non-letter, lower-cased otherwise. *)
Definition is_upper (c : ascii) : bool :=
  let n := nat_of_ascii c in (65 <=? n)%nat && (n <=? 90)%nat.
Definition is_lower (c : ascii) : bool :=
  let n := nat_of_ascii c in (97 <=? n)%nat && (n <=? 122)%nat.
Definition to_upper (c : ascii) : ascii :=
  if is_lower c then ascii_of_nat (nat_of_ascii c - 32) else c.
Definition to_lower (c : ascii) : ascii :=
  if is_upper c then ascii_of_nat (nat_of_ascii c + 32) else c.

Fixpoint title_from (after_letter : bool) (s : string) : string :=
  match s with
  | EmptyString => EmptyString
  | String c s' =>
      let cased := is_upper c || is_lower c in
      String (if after_letter then to_lower c else to_upper c)
             (title_from cased s')
  end.
Definition title (s : string) : string := title_from false s.

(** [sep.join(parts)]. *)
Definition join (sep : string) (parts : list string) : string :=
  String.concat sep parts.

(** ** Calendar dates ([datetime]) *)

Definition DAY_NAMES : list string :=
  ["Monday"; "Tuesday"; "Wednesday"; "Thursday"; "Friday"; "Saturday"; "Sunday"].
Definition SHORT_DAYS : list string :=
  ["Mon"; "Tue"; "Wed"; "Thu"; "Fri"; "Sat"; "Sun"].
Definition MONTHS : list string :=
  ["Jan"; "Feb"; "Mar"; "Apr"; "May"; "Jun";
   "Jul"; "Aug"; "Sep"; "Oct"; "Nov"; "Dec"].

Record datetime : Set := mk_date { year : Z; month : Z; day : Z }.

Definition is_leap (y : Z) : bool :=
  (y mod 4 =? 0) && (negb (y mod 100 =? 0) || (y mod 400 =? 0)).

Definition days_in_month (y m : Z) : Z :=
  if m =? 2 then (if is_leap y then 29 else 28)
  else if (m =? 4) || (m =? 6) || (m =? 9) || (m =? 11) then 30
  else 31.

Definition days_before_year (y : Z) : Z :=
  let p := y - 1 in p * 365 + p / 4 - p / 100 + p / 400.

Definition days_before_month (y m : Z) : Z :=
  foldr Z.add 0 (map (fun k => days_in_month y (Z.of_nat k)) (seq 1 (Z.to_nat (m - 1)))).

Definition toordinal (d : datetime) : Z :=
  days_before_year (year d) + days_before_month (year d) (month d) + day d.

(** [d.weekday()]: Monday is 0. *)
Definition weekday (d : datetime) : Z := (toordinal d + 6) mod 7.

Definition all_digits (s : string) : bool :=
  forallb (fun c => bool_decide (is_Some (digit_val c))) (list_ascii_of_string s).

(** The fields of [strptime]'s pattern for ["%Y-%m-%d"]: four digits; a
    month [1[0-2]|0[1-9]|[1-9]]; a day [3[01]|[12]\d|0[1-9]|[1-9]| [1-9]]. *)
Definition year_field (s : string) : option Z :=
  if all_digits s && (String.length s =? 4)%nat then int_digits s 0 false
  else None.
Definition month_field (s : string) : option Z :=
  if all_digits s && ((String.length s =? 1)%nat || (String.length s =? 2)%nat)
  then z ← int_digits s 0 false; guard (1 <= z <= 12);; Some z
  else None.
Definition day_field (s : string) : option Z :=
  let s' := match s with String " " r => if (String.length r =? 1)%nat then r else s | _ => s end in
  if all_digits s' && ((String.length s' =? 1)%nat || (String.length s' =? 2)%nat)
  then z ← int_digits s' 0 false; guard (1 <= z <= 31);; Some z
  else None.

(** [datetime.strptime(s, "%Y-%m-%d")]; the date must exist. *)
Definition strptime (s : string) : res datetime :=
  match split_on "-" s with
  | [ys; ms; ds] =>
      match year_field ys, month_field ms, day_field ds with
      | Some y, Some m, Some d =>
          if (1 <=? y) && (d <=? days_in_month y m)
          then Ok (mk_date y m d) else Raise ValueError
      | _, _, _ => Raise ValueError
      end
  | _ => Raise ValueError
  end.

Definition fmt_date (date_str : string) : res string :=
  d ← strptime date_str;
  wd ← idx SHORT_DAYS (Z.to_nat (weekday d));
  mo ← idx MONTHS (Z.to_nat (month d - 1));
  Ok (wd +:+ ", " +:+ mo +:+ " " +:+ pretty (day d)).

Definition day_of_week (date_str : string) : res string :=
  d ← strptime date_str;
  idx DAY_NAMES (Z.to_nat (weekday d)).

(** [d + timedelta(days=1)] and [d.strftime("%Y-%m-%d")]. *)
Definition next_day (d : datetime) : datetime :=
  if day d <? days_in_month (year d) (month d)
  then mk_date (year d) (month d) (day d + 1)
  else if month d <? 12 then mk_date (year d) (month d + 1) 1
  else mk_date (year d + 1) 1 1.

Definition pad (width : nat) (z : Z) : string :=
  let s := pretty z in
  String.concat "" (replicate (width - String.length s) "0") +:+ s.

Definition strftime (d : datetime) : string :=
  pad 4 (year d) +:+ "-" +:+ pad 2 (month d) +:+ "-" +:+ pad 2 (day d).

(** ** Configuration *)

Definition trip_start : string := "2026-03-01".
Definition trip_end : string := "2026-03-07".
Definition mountain_elev : Z := 1900.

(** The [while d <= end] loop of [trip_dates]; [fuel] bounds the number of
    iterations. *)
Fixpoint trip_loop (fuel : nat) (d stop : datetime) : list string :=
  match fuel with
  | O => []
  | S fuel' =>
      if toordinal d <=? toordinal stop
      then strftime d :: trip_loop fuel' (next_day d) stop
      else []
  end.

Definition trip_dates : res (list string) :=
  start ← strptime trip_start;
  stop ← strptime trip_end;
  Ok (trip_loop (Z.to_nat (toordinal stop - toordinal start + 1)) start stop).

(** ** The forecast model payload

    The [daily] and [hourly] objects of the model response: one column per
    requested field, aligned by position with the [time] column. A JSON
    [null] is [None]. *)

Record Daily : Type := {
  d_time : list string;
  d_temperature_2m_max : list (option Q);
  d_temperature_2m_min : list (option Q);
  d_precipitation_sum : list (option Q);
  d_snowfall_sum : list (option Q);
  d_windspeed_10m_max : list (option Q);
  d_winddirection_10m_dominant : list (option Q);
  d_weathercode : list (option Z)
}.

Record Hourly : Type := {
  h_time : list string;
  h_temperature_2m : list (option Q);
  h_snowfall : list (option Q);
  h_windspeed_10m : list (option Q);
  h_winddirection_10m : list (option Q);
  h_weathercode : list (option Z);
  h_cloudcover : list (option Q)
}.

Record Forecast : Type := { daily : Daily; hourly : Hourly }.

(** ** Records built by the aggregator *)

Module Period.
Record t : Type := mk {
  temp_min : Z; temp_max : Z; temp_avg : Z;
  snow_total : Q;
  wind_max : Z; wind_dir : string;
  weather_code : option Z;
  cloud_avg : Z
}.
End Period.

Module Mtn.
Record t : Type := mk {
  high : Z; low : Z;
  precip : option Q;
  snow : Q;
  wind_max : Z; wind_dir : string;
  weather_code : option Z
}.
End Mtn.

Module Val.
Record t : Type := mk {
  high : Z; low : Z; snow : Q; weather_code : option Z
}.
End Val.

Module Day.
Record t : Type := mk {
  date : string;
  date_fmt : string;
  day_of_week : string;
  icon : string;
  weather_desc : string;
  mountain : Mtn.t;
  valley : option Val.t;
  am : option Period.t;
  pm : option Period.t;
  night : option Period.t;
  avg_cloud : Z;
  freezing_level : Z
}.
(** The keys of the dict returned by [process_day], in order. *)
Definition keys : list string :=
  ["date"; "date_fmt"; "day_of_week"; "icon"; "weather_desc"; "mountain";
   "valley"; "am"; "pm"; "night"; "avg_cloud"; "freezing_level"].
End Day.

(** ** [extract_hourly_period] *)

(** [x or 0] on a number or [None]. *)
Definition or0 (x : option Q) : Q := default 0%Q x.

(** A number is required: [round], [min], [max] and [sum] raise
    [TypeError] on [None]. *)
Definition num (x : option Q) : res Q :=
  match x with
  | Some q => Ok q
  | None => Raise TypeError
  end.

(** [int(t.split("T")[1].split(":")[0])]. *)
Definition hour_of (t : string) : res Z :=
  tl ← idx (split_on "T" t) 1;
  hd ← idx (split_on ":" tl) 0;
  py_int hd.

(** The values appended to the six accumulators for one matching hour. *)
Record row : Type := mk_row {
  r_temp : option Q; r_snow : Q; r_wind : Q;
  r_dir : option Q; r_code : option Z; r_cloud : Q
}.

Definition hourly_row (h : Hourly) (i : nat) : res row :=
  t ← idx (h_temperature_2m h) i;
  s ← idx (h_snowfall h) i;
  w ← idx (h_windspeed_10m h) i;
  wd ← idx (h_winddirection_10m h) i;
  c ← idx (h_weathercode h) i;
  cl ← idx (h_cloudcover h) i;
  Ok (mk_row t (or0 s) (or0 w) wd c (or0 cl)).

(** The [for i, t in enumerate(hourly["time"])] loop, from position [i]. *)
Fixpoint collect_rows (h : Hourly) (date_str : string) (start_h end_h : Z)
    (i : nat) (ts : list string) : res (list row) :=
  match ts with
  | [] => Ok []
  | t :: ts' =>
      if String.prefix date_str t then
        hour ← hour_of t;
        if (start_h <=? hour) && (hour <? end_h) then
          r ← hourly_row h i;
          rs ← collect_rows h date_str start_h end_h (S i) ts';
          Ok (r :: rs)
        else collect_rows h date_str start_h end_h (S i) ts'
      else collect_rows h date_str start_h end_h (S i) ts'
  end.

(** [sorted(codes, reverse=True)[0]]: a single element is returned without
    any comparison; otherwise every element is compared and [None] raises. *)
Definition worst_code (codes : list (option Z)) : res (option Z) :=
  match codes with
  | [] => Raise IndexError
  | [c] => Ok c
  | c :: cs =>
      z ← (match c with Some z => Ok z | None => Raise TypeError end);
      zs ← res_mapM (fun c => match c with Some z => Ok z | None => Raise TypeError end) cs;
      Ok (Some (foldl Z.max z zs))
  end.

Definition Qlen {A} (l : list A) : Q := inject_Z (Z.of_nat (length l)).

Definition summarize (r : row) (rs : list row) : res Period.t :=
  let winds := r_wind r :: map r_wind rs in
  let snows := r_snow r :: map r_snow rs in
  let clouds := r_cloud r :: map r_cloud rs in
  max_wind_idx ← Qindex (Qmax_list (r_wind r) (map r_wind rs)) winds;
  t ← num (r_temp r);
  ts ← res_mapM num (map r_temp rs);
  wdeg ← idx (r_dir r :: map r_dir rs) max_wind_idx;
  wdir ← deg_to_compass wdeg;
  code ← worst_code (r_code r :: map r_code rs);
  Ok (Period.mk
        (py_round (Qmin_list t ts))
        (py_round (Qmax_list t ts))
        (py_round (Qsum (t :: ts) / Qlen (t :: ts)))
        (py_round1 (Qsum snows))
        (py_round (Qmax_list (r_wind r) (map r_wind rs)))
        wdir
        code
        (py_round (Qsum clouds / Qlen clouds))).

Definition extract_hourly_period (h : Hourly) (date_str : string)
    (start_h end_h : Z) : res (option Period.t) :=
  rows ← collect_rows h date_str start_h end_h 0 (h_time h);
  match rows with
  | [] => Ok None
  | r :: rs => Some <$> summarize r rs
  end.

(** ** [process_day] *)

(** [l.index(x)] on a list of strings; [None] stands for [ValueError]. *)
Fixpoint index_of (x : string) (l : list string) : option nat :=
  match l with
  | [] => None
  | y :: l' => if String.eqb y x then Some O else S <$> index_of x l'
  end.

Definition mountain_stats (d : Daily) (day_idx : nat) : res Mtn.t :=
  hi ← idx (d_temperature_2m_max d) day_idx ≫= num;
  lo ← idx (d_temperature_2m_min d) day_idx ≫= num;
  pr ← idx (d_precipitation_sum d) day_idx;
  sn ← idx (d_snowfall_sum d) day_idx ≫= num;
  wm ← idx (d_windspeed_10m_max d) day_idx ≫= num;
  wd ← idx (d_winddirection_10m_dominant d) day_idx ≫= deg_to_compass;
  wc ← idx (d_weathercode d) day_idx;
  Ok (Mtn.mk (py_round hi) (py_round lo) pr (py_round1 sn) (py_round wm) wd wc).

(** The [try] block for the valley: only the [ValueError] of [index] is
    caught ([KeyError] cannot occur on a record of columns). *)
Definition valley_stats (vd : Daily) (date_str : string) : res (option Val.t) :=
  match index_of date_str (d_time vd) with
  | None => Ok None
  | Some vi =>
      hi ← idx (d_temperature_2m_max vd) vi ≫= num;
      lo ← idx (d_temperature_2m_min vd) vi ≫= num;
      sn ← idx (d_snowfall_sum vd) vi ≫= num;
      wc ← idx (d_weathercode vd) vi;
      Ok (Some (Val.mk (py_round hi) (py_round lo) (py_round1 sn) wc))
  end.

Definition process_day (date_str : string) (mtn_data val_data : Forecast)
    : res (option Day.t) :=
  match index_of date_str (d_time (daily mtn_data)) with
  | None => Ok None
  | Some day_idx =>
      mtn ← mountain_stats (daily mtn_data) day_idx;
      val ← valley_stats (daily val_data) date_str;
      am ← extract_hourly_period (hourly mtn_data) date_str 6 12;
      pm ← extract_hourly_period (hourly mtn_data) date_str 12 18;
      night ← extract_hourly_period (hourly mtn_data) date_str 18 24;
      all_day ← extract_hourly_period (hourly mtn_data) date_str 6 24;
      let avg_cloud :=
        match all_day with
        | Some p => Period.cloud_avg p
        | None => 50
        end in
      let fl := freezing_level (inject_Z (Mtn.high mtn)) (inject_Z mountain_elev) in
      '(desc, icon) ← wmo_info (Mtn.weather_code mtn);
      df ← fmt_date date_str;
      dw ← day_of_week date_str;
      Ok (Some (Day.mk date_str df dw icon desc mtn val am pm night avg_cloud fl))
  end.

(** ** Untyped JSON values (the avalanche bulletin) *)

#[local] Set Warnings "-register-all".

Inductive json : Type :=
  | JNull
  | JBool (b : bool)
  | JInt (z : Z)
  | JFloat (q : Q)
  | JStr (s : string)
  | JArr (l : list json)
  | JObj (kv : list (string * json)).

Fixpoint assoc {V} (k : string) (kv : list (string * V)) : option V :=
  match kv with
  | [] => None
  | (k', v) :: kv' => if String.eqb k' k then Some v else assoc k kv'
  end.

(** Truth value of a Python object. *)
Definition truthy (v : json) : bool :=
  match v with
  | JNull => false
  | JBool b => b
  | JInt z => negb (z =? 0)
  | JFloat q => negb (Qeq_bool q 0)
  | JStr s => negb (String.eqb s "")
  | JArr l => match l with [] => false | _ => true end
  | JObj kv => match kv with [] => false | _ => true end
  end.

(** [v.get(k, dflt)]: only a dict has the method. *)
Definition py_get (v : json) (k : string) (dflt : json) : res json :=
  match v with
  | JObj kv => Ok (default dflt (assoc k kv))
  | _ => Raise AttributeError
  end.

(** [v[k]] for a string key. *)
Definition py_item (v : json) (k : string) : res json :=
  match v with
  | JObj kv => match assoc k kv with Some x => Ok x | None => Raise KeyError end
  | _ => Raise TypeError
  end.

(** [v[0]]. The keys of a JSON object are strings, so [0] is never one. *)
Definition py_first (v : json) : res json :=
  match v with
  | JArr (x :: _) => Ok x
  | JArr [] => Raise IndexError
  | JStr (String c _) => Ok (JStr (String c ""))
  | JStr EmptyString => Raise IndexError
  | JObj _ => Raise KeyError
  | _ => Raise TypeError
  end.

(** The elements visited by [for x in v]. *)
Definition py_iter (v : json) : res (list json) :=
  match v with
  | JArr l => Ok l
  | JObj kv => Ok (map (fun p => JStr (fst p)) kv)
  | JStr s => Ok (map (fun c => JStr (String c "")) (list_ascii_of_string s))
  | _ => Raise TypeError
  end.

(** [v.startswith(p)]: only a string has the method. *)
Definition py_startswith (v : json) (p : string) : res bool :=
  match v with
  | JStr s => Ok (String.prefix p s)
  | _ => Raise AttributeError
  end.

(** The text of [v] inside an f-string. *)
Definition py_str (v : json) : res string :=
  match v with
  | JStr s => Ok s
  | JNull => Ok "None"
  | JBool true => Ok "True"
  | JBool false => Ok "False"
  | JInt z => Ok (pretty z)
  | _ => Raise Unsupported
  end.

(** The text of a float that is a multiple of one tenth, below the size
    where [repr] switches to exponent form. *)
Definition py_float_str (q : Q) : res string :=
  let n := Qfloor (q * 10) in
  if Qeq_bool (inject_Z n) (q * 10) && (Z.abs n <? 10 ^ 17) then
    Ok ((if n <? 0 then "-" else "") +:+ pretty (Z.abs n / 10) +:+ "."
        +:+ pretty (Z.abs n mod 10))
  else Raise Unsupported.

(** ** Narrative generators *)

Definition gen_summary (day : Day.t) : res string :=
  let parts := [Day.weather_desc day] in
  parts ← (if Qltb 0 (Mtn.snow (Day.mountain day))
            then sn ← py_float_str (Mtn.snow (Day.mountain day));
                 Ok (parts ++ [sn +:+ "cm snow"])
            else Ok parts : res (list string));
  let parts : list string :=
    if 20 <? Mtn.wind_max (Day.mountain day)
    then parts ++ ["winds " +:+ pretty (Mtn.wind_max (Day.mountain day)) +:+ " km/h"]
    else parts in
  Ok (join ", " parts).

Definition gen_backcountry (day : Day.t) : res string :=
  let cloud := Day.avg_cloud day in
  let snow := Mtn.snow (Day.mountain day) in
  let wind := Mtn.wind_max (Day.mountain day) in
  let high := Mtn.high (Day.mountain day) in
  let notes :=
    if cloud <? 30 then
      ["Excellent visibility for alpine objectives. Good day for bigger terrain."]
    else if 80 <? cloud then
      ["Flat light likely in alpine. Favour treed terrain and lower-angle runs."]
    else ["Variable visibility through the day."] in
  notes ← (if Qltb 15 snow then
             sn ← py_float_str snow;
             Ok (notes ++ ["Heavy snowfall (" +:+ sn +:+ "cm) — deep powder potential but limited vis. Stick to familiar zones."])
           else if Qltb 5 snow then
             sn ← py_float_str snow;
             Ok (notes ++ ["Fresh snow (" +:+ sn +:+ "cm) for good turns in sheltered terrain."])
           else if Qltb 0 snow then
             sn ← py_float_str snow;
             Ok (notes ++ ["Light snow (" +:+ sn +:+ "cm). Existing surfaces refreshed."])
           else
             Ok (notes ++ ["No new snow. Look for wind-sheltered aspects where soft snow remains."])
           : res (list string));
  let notes : list string :=
    if 25 <? wind then
      notes ++ ["Strong winds (" +:+ pretty wind +:+ " km/h " +:+ Mtn.wind_dir (Day.mountain day)
                +:+ ") — significant wind effect at ridgeline."]
    else if 15 <? wind then
      notes ++ ["Moderate winds (" +:+ pretty wind +:+ " km/h " +:+ Mtn.wind_dir (Day.mountain day)
                +:+ ") — some wind loading on lee features."]
    else notes in
  let notes : list string :=
    if 2 <? high then
      notes ++ ["Warm temps — watch for wet loose on steep south-facing terrain in afternoon. Start early."]
    else notes in
  Ok (join " " notes).

(** [dr[...].get(band, {}).get("rating", {}).get(field, dflt)]. *)
Definition band_field (ratings : json) (band field : string) (dflt : json) : res json :=
  b ← py_get ratings band (JObj []);
  r ← py_get b "rating" (JObj []);
  py_get r field dflt.

Definition rating_sentence (dr : json) : res string :=
  ratings ← py_item dr "ratings";
  alp ← band_field ratings "alp" "display" (JStr "?");
  tln ← band_field ratings "tln" "display" (JStr "?");
  btl ← band_field ratings "btl" "display" (JStr "?");
  a ← py_str alp;
  t ← py_str tln;
  b ← py_str btl;
  Ok ("Avalanche Canada danger: Alpine " +:+ a +:+ ", Treeline " +:+ t
      +:+ ", Below treeline " +:+ b +:+ ".").

(** The [for dr in report["dangerRatings"]] loop with its [break]: the
    rating sentence of the first entry whose date starts with [date]. *)
Fixpoint rating_notes (date : string) (drs : list json) : res (list string) :=
  match drs with
  | [] => Ok []
  | dr :: drs' =>
      dt ← py_get dr "date" (JObj []);
      dval ← py_get dt "value" (JStr "");
      py_startswith dval date ≫= fun hit : bool =>
      if hit then s ← rating_sentence dr; Ok [s]
      else rating_notes date drs'
  end.

Definition storm_slab_heavy : string :=
  "Storm slab building with significant new snow. Natural avalanches likely on steep terrain.".
Definition storm_slab_light : string :=
  "New storm slab forming with fresh snow loading.".
Definition wind_slab (dir : string) : string :=
  "Wind slab likely on lee aspects with " +:+ dir +:+ " winds.".
Definition persistent_layer : string :=
  "Persistent weak layers (Feb 13 surface hoar, Jan 28 crust) remain in the snowpack. Assess stability as you travel.".

Definition storm_notes (snow : Q) : list string :=
  if Qltb 10 snow then [storm_slab_heavy]
  else if Qltb 3 snow then [storm_slab_light]
  else [].

Definition wind_notes (m : Mtn.t) : list string :=
  if 15 <? Mtn.wind_max m then [wind_slab (Mtn.wind_dir m)] else [].

(** [avy_data.get("product", {}).get("report") if avy_data else None]. *)
Definition avy_report_notes (avy_data : json) : res json :=
  if truthy avy_data then
    product ← py_get avy_data "product" (JObj []);
    py_get product "report" JNull
  else Ok JNull.

Definition gen_avy_notes (day : Day.t) (avy_data : json) : res string :=
  report ← avy_report_notes avy_data;
  notes ← (if truthy report then
             drs ← py_get report "dangerRatings" JNull;
             if truthy drs then
               drs ← py_item report "dangerRatings";
               l ← py_iter drs;
               rating_notes (Day.date day) l
             else Ok []
           else Ok [] : res (list string));
  let notes : list string := notes ++ storm_notes (Mtn.snow (Day.mountain day)) in
  let notes : list string := notes ++ wind_notes (Day.mountain day) in
  let notes : list string := notes ++ [persistent_layer] in
  Ok (join " " notes).

(** ** [gen_week_outlook] *)

Definition plural (n : Z) : string := if n =? 1 then "" else "s".

Definition count_if {A} (f : A -> bool) (l : list A) : Z :=
  Z.of_nat (length (List.filter f l)).

(** [max(...)] and [min(...)] of a generator: [ValueError] when empty. *)
Definition Zmax_of (l : list Z) : res Z :=
  match l with
  | [] => Raise ValueError
  | x :: l' => Ok (foldl Z.max x l')
  end.
Definition Zmin_of (l : list Z) : res Z :=
  match l with
  | [] => Raise ValueError
  | x :: l' => Ok (foldl Z.min x l')
  end.

Definition is_best (d : Day.t) : bool :=
  (Day.avg_cloud d <? 50) && (Mtn.wind_max (Day.mountain d) <? 15).

Definition best_days (days : list Day.t) : list string :=
  map Day.date_fmt (List.filter is_best days).

Definition total_snow (days : list Day.t) : Q :=
  Qsum (map (fun d => Mtn.snow (Day.mountain d)) days).

Definition snow_clause (total : Q) : string :=
  "Total expected snowfall: ~" +:+ pretty (py_round total) +:+ "cm.".
Definition best_clause (best : list string) : string :=
  "Best days for big objectives: " +:+ join ", " best +:+ ".".

Definition outlook_header (clear_days snow_days : Z) : string :=
  "<strong>Week outlook:</strong> " +:+ pretty clear_days +:+ " clear day"
  +:+ plural clear_days +:+ ", " +:+ pretty snow_days +:+ " day"
  +:+ plural snow_days +:+ " with snowfall.".
Definition temps_clause (temp_low temp_high : Z) : string :=
  "Mountain temps range " +:+ pretty temp_low +:+ " to "
  +:+ pretty temp_high +:+ "°C.".

(** The list [parts] at the end of [gen_week_outlook]. *)
Definition week_outlook_parts (days : list Day.t) : res (list string) :=
  let clear_days := count_if (fun d => Day.avg_cloud d <? 40) days in
  let snow_days := count_if (fun d => Qltb 1 (Mtn.snow (Day.mountain d))) days in
  temp_high ← Zmax_of (map (fun d => Mtn.high (Day.mountain d)) days);
  temp_low ← Zmin_of (map (fun d => Mtn.low (Day.mountain d)) days);
  let parts := [outlook_header clear_days snow_days] in
  let parts : list string := parts ++ [temps_clause temp_low temp_high] in
  let parts : list string :=
    if Qltb 0 (total_snow days) then parts ++ [snow_clause (total_snow days)]
    else parts in
  let best := best_days days in
  let parts : list string :=
    match best with
    | [] => parts
    | _ => parts ++ [best_clause best]
    end in
  Ok parts.

Definition gen_week_outlook (days : list Day.t) : res string :=
  join " " <$> week_outlook_parts days.

(** ** [avy_banner] *)

Module Banner.
Record t : Type := mk { level : json; label : json; color : string }.
End Banner.

Definition levels : gmap string Z :=
  list_to_map [("low", 1); ("moderate", 2); ("considerable", 3);
               ("high", 4); ("extreme", 5)].

Definition colors : gmap string string :=
  list_to_map [("low", "var(--green)"); ("moderate", "var(--danger-moderate)");
               ("considerable", "var(--danger-considerable)");
               ("high", "var(--danger-high)"); ("extreme", "var(--danger-high)")].

(** [levels.get(val, 0)]: a list or a dict is not hashable. *)
Definition levels_get (val : json) : res Z :=
  match val with
  | JStr s => Ok (default 0 (levels !! s))
  | JArr _ | JObj _ => Raise TypeError
  | _ => Ok 0
  end.

(** One iteration of [for elev in ("alp", "tln", "btl")]. *)
Definition banner_step (today : json) (acc : Z * string) (elev : string)
    : res (Z * string) :=
  val ← band_field today elev "value" (JStr "");
  lv ← levels_get val;
  if fst acc <? lv then
    match val with
    | JStr s => l ← dict_item levels s; Ok (l, s)
    | _ => Raise TypeError
    end
  else Ok acc.

Definition unknown_banner : Banner.t :=
  Banner.mk (JStr "?") (JStr "Check avalanche.ca") "var(--text-muted)".

Definition avy_banner (avy_data : json) : res Banner.t :=
  product ← (if truthy avy_data then py_get avy_data "product" JNull else Ok JNull);
  report ← (if truthy product then py_get product "report" JNull else Ok JNull);
  (if truthy report then truthy <$> py_get report "dangerRatings" JNull
   else Ok false) ≫= fun has : bool =>
  if negb has then Ok unknown_banner
  else
    drs ← py_item report "dangerRatings";
    first ← py_first drs;
    today ← py_get first "ratings" (JObj []);
    acc ← banner_step today (0, "low") "alp";
    acc ← banner_step today acc "tln";
    acc ← banner_step today acc "btl";
    let '(max_level, max_name) := acc in
    alp_display ← band_field today "alp" "display" JNull;
    let display :=
      if truthy alp_display then alp_display
      else JStr (pretty max_level +:+ " - " +:+ title max_name) in
    Ok (Banner.mk (JInt max_level) display
          (default "var(--text-muted)" (colors !! max_name))).

(** ** [generate_html]

    The page is modelled by the values [generate_html] computes from the day
    sequence and the bulletin through the functions above: the banner, the
    week outlook and, per day, the narrative fields of its card. The
    observation line, the government text and the markup are presentation
    and are left out. *)

Module Card.
Record t : Type := mk {
  date : string;
  summary : string;
  backcountry : string;
  avyNote : string
}.
End Card.

Module Page.
Record t : Type := mk {
  banner : Banner.t;
  outlook : string;
  cards : list Card.t
}.
End Page.

Definition make_card (avy_data : json) (d : Day.t) : res Card.t :=
  s ← gen_summary d;
  b ← gen_backcountry d;
  a ← gen_avy_notes d avy_data;
  Ok (Card.mk (Day.date_fmt d) s b a).

Definition generate_html (days : list Day.t) (avy_data : json) : res Page.t :=
  banner ← avy_banner avy_data;
  outlook ← gen_week_outlook days;
  cards ← res_mapM (make_card avy_data) days;
  Ok (Page.mk banner outlook cards).

(** ** Persistence and [main] *)

(** The content of [data.json]: the [days] mapping (a key that may be
    missing from a hand-edited file), the time stamp and the observation. *)
Record Store : Type := mk_store {
  st_days : option (gmap string Day.t);
  st_lastUpdated : option string;
  st_metar : option json
}.

(** The two files of the program; [None] is a file that does not exist (or,
    for [data.json], does not decode). *)
Record Files : Type := mk_files {
  data_file : option Store;
  out_file : option Page.t
}.

Definition load_previous (fs : Files) : Store :=
  default (mk_store (Some ∅) None None) (data_file fs).

Definition save_data (data : Store) (fs : Files) : Files :=
  mk_files (Some data) (out_file fs).

(** [previous.get("days", {})]. *)
Definition cached_days (previous : Store) : gmap string Day.t :=
  default ∅ (st_days previous).

(** The [for date_str in dates] loop of [main], threading the mutated
    [previous] and the list [days]. *)
Fixpoint aggregate (dates : list string) (mtn_data val_data : Forecast)
    (previous : Store) (days : list Day.t) : res (Store * list Day.t) :=
  match dates with
  | [] => Ok (previous, days)
  | date_str :: rest =>
      day ← process_day date_str mtn_data val_data;
      match day with
      | Some d =>
          match st_days previous with
          | Some m =>
              aggregate rest mtn_data val_data
                (mk_store (Some (<[date_str := d]> m))
                   (st_lastUpdated previous) (st_metar previous))
                (days ++ [d])
          | None => Raise KeyError
          end
      | None =>
          match cached_days previous !! date_str with
          | Some c => aggregate rest mtn_data val_data previous (days ++ [c])
          | None => aggregate rest mtn_data val_data previous days
          end
      end
  end.

(** What [safe_fetch] returned for each source; [None] and [JNull] are a
    failed fetch. *)
Record Fetched : Type := mk_fetched {
  mtn_data : option Forecast;
  val_data : option Forecast;
  metar : json;
  avy_data : json
}.

(** How the process ends: [sys.exit(code)], an uncaught exception (Python
    then exits with status 1), or the normal end of [main]. *)
Inductive outcome : Type :=
  | Exit (code : Z)
  | Uncaught (e : exn)
  | Done.

Definition exit_code (o : outcome) : Z :=
  match o with
  | Exit c => c
  | Uncaught _ => 1
  | Done => 0
  end.

(** [main], as a function of the fetched data, the clock and the files. *)
Definition main_on (dates : res (list string)) (f : Fetched) (now : string)
    (fs : Files) : outcome * Files :=
  match mtn_data f with
  | None => (Exit 1, fs)
  | Some mtn =>
      let val := default mtn (val_data f) in
      match dates with
      | Raise e => (Uncaught e, fs)
      | Ok dates =>
          match aggregate dates mtn val (load_previous fs) [] with
          | Raise e => (Uncaught e, fs)
          | Ok (previous, []) => (Exit 1, fs)
          | Ok (previous, days) =>
              let previous :=
                mk_store (st_days previous) (Some now) (Some (metar f)) in
              let fs := save_data previous fs in
              match generate_html days (avy_data f) with
              | Raise e => (Uncaught e, fs)
              | Ok page => (Done, mk_files (data_file fs) (Some page))
              end
          end
      end
  end.

Definition main : Fetched -> string -> Files -> outcome * Files :=
  main_on trip_dates.

(** ** Government text forecast: [match_ec] and the card's valley text *)

(** One block of the parsed text forecast, as [parse_ec_xml] builds it. *)
Record EcBlock : Type := mk_ec {
  ec_period : string;
  ec_summary : string;
  ec_temp : option Z;
  ec_temp_class : option string
}.

(** [s.lower()] on ASCII text. *)
Fixpoint lower (s : string) : string :=
  match s with
  | EmptyString => EmptyString
  | String c s' => String (to_lower c) (lower s')
  end.

(** [needle in hay] on strings. *)
Fixpoint contains (needle hay : string) : bool :=
  String.prefix needle hay
  || match hay with
     | EmptyString => false
     | String _ hay' => contains needle hay'
     end.

(** [ec_forecasts] is [None] after a failed fetch. An empty or missing feed
    is answered before the date is read. *)
Definition match_ec (ec_forecasts : option (list EcBlock)) (date_str : string)
    : res (option string) :=
  match ec_forecasts with
  | None | Some [] => Ok None
  | Some blocks =>
      d ← strptime date_str;
      name ← idx DAY_NAMES (Z.to_nat (weekday d));
      let day_name := lower name in
      let matches :=
        map ec_summary
          (List.filter (fun f => contains day_name (lower (ec_period f))) blocks) in
      Ok match matches with
         | [] => None
         | _ => Some (join " " matches)
         end
  end.



(** ** Region selection of [fetch_avalanche_canada]

    The function is modelled from the point where the metadata catalog has
    been fetched; the second request, for the region's product, is the
    parameter [fetch_product] (it receives the slug). *)

(** [a or b]. *)
Definition py_or (a b : json) : json := if truthy a then a else b.

(** [v.lower()]: only a string has the method. *)
Definition py_lower (v : json) : res string :=
  match v with
  | JStr s => Ok (lower s)
  | _ => Raise AttributeError
  end.

(** A number in arithmetic; [True] and [False] count as 1 and 0. *)
Definition py_num (v : json) : res Q :=
  match v with
  | JInt z => Ok (inject_Z z)
  | JFloat q => Ok q
  | JBool b => Ok (if b then 1 else 0)%Q
  | _ => Raise TypeError
  end.

Definition mountain_lat : Q := 5135 # 100.
Definition mountain_lon : Q := - (11795 # 100).

(** [(r.get("product", {}).get("title", "") or "").lower()]. *)
Definition region_title_lower (r : json) : res string :=
  p ← py_get r "product" (JObj []);
  t ← py_get p "title" (JStr "");
  py_lower (py_or t (JStr "")).

Definition name_match (title : string) : bool :=
  contains "monashee" title || contains "north columbia" title.

(** The first loop: the first region whose title names the range. *)
Fixpoint find_by_name (rs : list json) : res json :=
  match rs with
  | [] => Ok JNull
  | r :: rs' =>
      title ← region_title_lower r;
      if name_match title then Ok r else find_by_name rs'
  end.

(** [abs(c["latitude"] - lat) + abs(c["longitude"] - lon)]. *)
Definition centroid_dist (c : json) : res Q :=
  lat ← py_item c "latitude" ≫= py_num;
  lon ← py_item c "longitude" ≫= py_num;
  Ok (Qabs (lat - mountain_lat) + Qabs (lon - mountain_lon))%Q.

(** The second loop: [best_dist] is [None] for infinity. *)
Fixpoint nearest (rs : list json) (best_dist : option Q) (region : json)
    : res json :=
  match rs with
  | [] => Ok region
  | r :: rs' =>
      c ← py_get r "centroid" JNull;
      if truthy c then
        dist ← centroid_dist c;
        if match best_dist with
           | None => true
           | Some b => Qltb dist b
           end
        then nearest rs' (Some dist) r
        else nearest rs' best_dist region
      else nearest rs' best_dist region
  end.

Definition fetch_avalanche_canada (fetch_product : json -> res json)
    (metadata : json) : res json :=
  rs ← py_iter metadata;
  region ← find_by_name rs;
  region ← (if negb (truthy region) then nearest rs None JNull else Ok region);
  if negb (truthy region) then
    Ok (JObj [("region", JNull); ("product", JNull)])
  else
    p ← py_get region "product" (JObj []);
    t ← py_get p "title" JNull;
    _ ← (if truthy t then Ok t
         else a ← py_get region "area" (JObj []);
              n ← py_get a "name" JNull;
              Ok (py_or n (JStr "?")));
    p ← py_get region "product" (JObj []);
    slug ← py_get p "slug" JNull;
    if negb (truthy slug) then
      Ok (JObj [("region", region); ("product", JNull)])
    else
      product ← fetch_product slug;
      Ok (JObj [("region", region); ("product", product)]).

(** ** The hour scan of [fetch_environment_canada]

    The two requests and the parser are parameters: [fetch_text] and
    [parse_ec_xml] return a text or a block list, or fail with some
    exception ([inl]); the loop catches every exception. The scan returns
    the blocks, or [None] for the final [RuntimeError], together with the
    URLs it requested, in order. *)

Definition dquote : ascii := ascii_of_nat 34.
Definition href_open : string := "href=" +:+ String dquote "".
Definition link_suffix : string := "s0000679_en.xml".

(** [s] without the prefix [p], when it has it. *)
Fixpoint strip_prefix (p s : string) : option string :=
  match p with
  | EmptyString => Some s
  | String a p' =>
      match s with
      | String b s' => if Ascii.eqb a b then strip_prefix p' s' else None
      | EmptyString => None
      end
  end.

(** The characters before the next double quote, when there is one. *)
Fixpoint quoted_run (s : string) : option string :=
  match s with
  | EmptyString => None
  | String c s' =>
      if Ascii.eqb c dquote then Some EmptyString
      else String c <$> quoted_run s'
  end.

Definition ends_with (suffix s : string) : bool :=
  String.prefix (String.rev suffix) (String.rev s).

(** A match of the link pattern (the word href, an equals sign, and a
    quoted text without quotes that ends with the file name) that starts at
    the head of [s]; the result is the quoted text. *)
Definition link_at (s : string) : option string :=
  rest ← strip_prefix href_open s;
  run ← quoted_run rest;
  if ends_with link_suffix run then Some run else None.

(** [re.search]: the leftmost match; the result is group 1. *)
Fixpoint find_link (s : string) : option string :=
  match link_at s with
  | Some l => Some l
  | None =>
      match s with
      | EmptyString => None
      | String _ s' => find_link s'
      end
  end.

Definition ec_dir_url (h : Z) : string :=
  "https://dd.weather.gc.ca/today/citypage_weather/BC/" +:+ pad 2 h +:+ "/".

Section EnvironmentCanada.

Context {E : Type}.
Variable fetch_text : string -> E + string.
Variable parse_ec_xml : string -> E + list EcBlock.

(** The body of the loop for the hour [h]: its result, if it returns, and
    the URLs it requests. *)
Definition try_hour (h : Z) : option (list EcBlock) * list string :=
  let dir_url := ec_dir_url h in
  match fetch_text dir_url with
  | inl _ => (None, [dir_url])
  | inr html =>
      match find_link html with
      | None => (None, [dir_url])
      | Some name =>
          match fetch_text (dir_url +:+ name) with
          | inl _ => (None, [dir_url; dir_url +:+ name])
          | inr xml_text =>
              match parse_ec_xml xml_text with
              | inl _ => (None, [dir_url; dir_url +:+ name])
              | inr blocks => (Some blocks, [dir_url; dir_url +:+ name])
              end
          end
      end
  end.

(** [(now.hour - offset) % 24]. *)
Definition scan_hour (now_hour offset : Z) : Z := (now_hour - offset) mod 24.

(** The [for offset in range(6)] loop. *)
Fixpoint ec_scan (now_hour : Z) (offsets : list Z)
    : option (list EcBlock) * list string :=
  match offsets with
  | [] => (None, [])
  | offset :: rest =>
      match try_hour (scan_hour now_hour offset) with
      | (Some blocks, urls) => (Some blocks, urls)
      | (None, urls) =>
          let '(r, urls') := ec_scan now_hour rest in (r, urls ++ urls')
      end
  end.

Definition fetch_environment_canada (now_hour : Z)
    : option (list EcBlock) * list string :=
  ec_scan now_hour [0; 1; 2; 3; 4; 5].

End EnvironmentCanada.

(** ** [strip_html]

    [re.sub] with the pattern of a tag: a less-than sign, one or more
    characters other than a greater-than sign, and a greater-than sign. The
    matches are found from left to right and do not overlap; a match starts at
    a less-than sign whose next character is no greater-than sign and which
    has a greater-than sign somewhere after it, and it ends at the first
    such sign. *)

Fixpoint has_gt (s : string) : bool :=
  match s with
  | EmptyString => false
  | String c s' => Ascii.eqb c ">" || has_gt s'
  end.

(** The rest of the pattern matches at the head of [s]. *)
Definition tag_body (s : string) : bool :=
  match s with
  | String d r => negb (Ascii.eqb d ">") && has_gt r
  | EmptyString => false
  end.

(** The text without its matches; [in_tag] holds inside a match. *)
Fixpoint sub_tags (in_tag : bool) (s : string) : string :=
  match s with
  | EmptyString => EmptyString
  | String c s' =>
      if in_tag then sub_tags (negb (Ascii.eqb c ">")) s'
      else if Ascii.eqb c "<" && tag_body s' then sub_tags true s'
      else String c (sub_tags false s')
  end.

(** [None] is Python's [None]; [strip] is [str.strip] on ASCII text. *)
Definition strip_html (s : option string) : string :=
  strip (sub_tags false (default "" s)).

(** * Vocabulary of the statements and sample data *)

(** Rounding a fraction, in integer arithmetic. *)
Definition round_frac (a : Z) (b : positive) : Z :=
  match 2 * (a mod Z.pos b) ?= Z.pos b with
  | Lt => a / Z.pos b
  | Gt => a / Z.pos b + 1
  | Eq => if Z.even (a / Z.pos b) then a / Z.pos b else a / Z.pos b + 1
  end.

(** The [n] consecutive integers from [lo]. *)
Definition Z_range (lo : Z) (n : nat) : list Z :=
  map (fun i => lo + Z.of_nat i) (seq 0 n).

(** Boolean equality of optional integers. *)
Definition option_Z_eqb (a b : option Z) : bool :=
  match a, b with
  | Some x, Some y => x =? y
  | None, None => true
  | _, _ => false
  end.

(** The time stamp [t] does not fall on [date] within the hours
    [start_h, end_h): either it is another date's, or its hour reads as a
    number outside the range. *)
Definition no_match (date_str : string) (start_h end_h : Z) (t : string) : Prop :=
  String.prefix date_str t = true ->
  exists hr, hour_of t = Ok hr /\ ~ (start_h <= hr < end_h).

(** The entry [WMO[3]]. *)
Definition overcast : string * string := ("Overcast", "☁️").

(** Two days of mountain data: highs 4.6 and -2. *)
Definition sample_daily : Daily :=
  {| d_time := ["2026-03-01"; "2026-03-02"];
     d_temperature_2m_max := [Some (46 # 10); Some (-2 # 1)]%Q;
     d_temperature_2m_min := [Some (-71 # 10); Some (-9 # 1)]%Q;
     d_precipitation_sum := [Some (12 # 10); None]%Q;
     d_snowfall_sum := [Some (84 # 100); Some 0]%Q;
     d_windspeed_10m_max := [Some (15 # 1); Some (31 # 1)]%Q;
     d_winddirection_10m_dominant := [Some 359; Some 44]%Q;
     d_weathercode := [Some 71; None] |}.

(** Its hours: a contiguous series from 20:00 on 1 March to 03:00 on
    2 March. *)
Definition sample_hourly : Hourly :=
  {| h_time := ["2026-03-01T20:00"; "2026-03-01T21:00"; "2026-03-01T22:00";
                "2026-03-01T23:00"; "2026-03-02T00:00"; "2026-03-02T01:00";
                "2026-03-02T02:00"; "2026-03-02T03:00"];
     h_temperature_2m := [Some (-25 # 10); Some (-3 # 1); Some (-45 # 10); Some (-5 # 1);
                          Some (-6 # 1); Some (-7 # 1); Some (-8 # 1); Some (-9 # 1)]%Q;
     h_snowfall := [Some (3 # 10); None; Some (5 # 10); Some 0;
                    Some 0; Some 0; Some 0; Some 0]%Q;
     h_windspeed_10m := [Some (125 # 10); Some 15; Some 15; Some 9;
                         Some 20; Some 25; Some 31; Some 30]%Q;
     h_winddirection_10m := [Some 200; Some 359; Some 10; None;
                             Some 44; Some 44; Some 46; Some 46]%Q;
     h_weathercode := [Some 71; Some 73; Some 71; Some 3;
                       Some 3; Some 3; Some 3; None];
     h_cloudcover := [Some 20; Some 45; Some 40; Some 24;
                      Some 90; Some 90; Some 100; None]%Q |}.

Definition sample_forecast : Forecast :=
  {| daily := sample_daily; hourly := sample_hourly |}.

(** Some part of [parts] begins with the words [pre]. *)
Definition has_clause (pre : string) (parts : list string) : Prop :=
  Exists (fun p => String.prefix pre p = true) parts.

(** The opening words of the two optional clauses of the outlook. *)
Definition best_words : string := "Best days for big objectives".

Definition snow_words : string := "Total expected snowfall".

(** A week of three days: wind exactly 15, a qualifying day, cloud exactly
    50; no new snow after the first day. *)
Definition sample_week : list Day.t :=
  [ Day.mk "2026-03-01" "Sun, Mar 1" "Sunday" "🌨️" "Light snow"
      (Mtn.mk 5 (-7) (Some (12 # 10)%Q) (8 # 10)%Q 15 "N" (Some 71))
      None None None None 32 2669;
    Day.mk "2026-03-02" "Mon, Mar 2" "Monday" "☀️" "Clear sky"
      (Mtn.mk (-2) (-9) None 0%Q 14 "NE" (Some 0))
      None None None None 49 1592;
    Day.mk "2026-03-03" "Tue, Mar 3" "Tuesday" "☁️" "Overcast"
      (Mtn.mk (-1) (-8) None 0%Q 3 "NE" (Some 3))
      None None None None 50 1746 ].

(** The shapes of the bulletin: a band's rating, one entry of
    [dangerRatings], the bulletin with a product, and the bulletin that
    [fetch_avalanche_canada] returns when the region has no product. *)
Definition band (value display : string) : json :=
  JObj [("rating", JObj [("value", JStr value); ("display", JStr display)])].

Definition danger_rating (date : string) (alp tln btl : json) : json :=
  JObj [("date", JObj [("value", JStr date)]);
        ("ratings", JObj [("alp", alp); ("tln", tln); ("btl", btl)])].

Definition bulletin (region : json) (drs : list json) : json :=
  JObj [("region", region);
        ("product", JObj [("report", JObj [("dangerRatings", JArr drs)])])].

Definition half_populated (region : json) : json :=
  JObj [("region", region); ("product", JNull)].

(** [levels.get(s, 0)] on a string. *)
Definition lvl (s : string) : Z := default 0 (levels !! s).

(** A first entry whose alpine band is "low" while the treeline band is
    "high". *)
Definition alpine_low_treeline_high : json :=
  bulletin JNull
    [danger_rating "2026-03-01T00:00:00Z"
       (band "low" "1 - Low") (band "high" "4 - High")
       (band "moderate" "2 - Moderate")].

(** The opening words of the rating sentence. *)
Definition rating_words : string := "Avalanche Canada danger: Alpine ".

(** The record of a date that can be computed fresh. *)
Definition fresh (mtn val : Forecast) (date_str : string) : option Day.t :=
  match process_day date_str mtn val with
  | Ok (Some d) => Some d
  | _ => None
  end.

(** The record the loop appends for a date: the fresh one, else the cached
    one. *)
Definition pick (mtn val : Forecast) (cache : gmap string Day.t)
    (date_str : string) : option Day.t :=
  match fresh mtn val date_str with
  | Some d => Some d
  | None => cache !! date_str
  end.

(** The date has neither fresh nor cached data. *)
Definition no_data (mtn : Forecast) (previous : Store) (date_str : string) : Prop :=
  index_of date_str (d_time (daily mtn)) = None
  /\ cached_days previous !! date_str = None.

(** A forecast that covers 20 February only. *)
Definition stale_forecast : Forecast :=
  {| daily := {| d_time := ["2026-02-20"];
                 d_temperature_2m_max := [Some 1%Q];
                 d_temperature_2m_min := [Some (-4 # 1)%Q];
                 d_precipitation_sum := [None];
                 d_snowfall_sum := [Some 0%Q];
                 d_windspeed_10m_max := [Some 9%Q];
                 d_winddirection_10m_dominant := [None];
                 d_weathercode := [Some 2] |};
     hourly := {| h_time := []; h_temperature_2m := []; h_snowfall := [];
                  h_windspeed_10m := []; h_winddirection_10m := [];
                  h_weathercode := []; h_cloudcover := [] |} |}.

(** Neither file exists yet. *)
Definition no_files : Files := mk_files None None.

(** The run is fatal: the mountain fetch failed, or no trip date has fresh
    or cached data. *)
Definition fatal (f : Fetched) (fs : Files) : Prop :=
  match mtn_data f with
  | None => True
  | Some mtn =>
      exists dates, trip_dates = Ok dates
                    /\ Forall (no_data mtn (load_previous fs)) dates
  end.

(** A record cached by an earlier run, as [process_day] built it. *)
Definition cached_day : Day.t :=
  Day.mk "2026-03-01" "Sun, Mar 1" "Sunday" "🌨️" "Light snow"
    (Mtn.mk 5 (-7) (Some (12 # 10)%Q) (8 # 10)%Q 15 "N" (Some 71))
    None None None None 32 2669.

(** A cache that holds that record, and no report yet. *)
Definition cached_files : Files :=
  mk_files (Some (mk_store (Some {[ "2026-03-01" := cached_day ]}) None None)) None.

(** A bulletin rated for 1 March. *)
Definition rated_bulletin : json :=
  bulletin JNull
    [danger_rating "2026-03-01T00:00:00Z"
       (band "considerable" "3 - Considerable")
       (band "moderate" "2 - Moderate") (band "low" "1 - Low")].

(** A run whose mountain forecast no longer covers the trip dates. *)
Definition stale_run (avy : json) : Fetched :=
  mk_fetched (Some stale_forecast) None JNull avy.

(** The cards of the report a run wrote, if it wrote one. *)
Definition cards_of (r : outcome * Files) : option (list Card.t) :=
  Page.cards <$> out_file (snd r).

(** One entry of [dangerRatings] of the expected shape: its date and, per
    band, the rating's value and display text. *)
Record rated : Type := mk_rated {
  on_date : string;
  alp_value : string; alp_display : string;
  tln_value : string; tln_display : string;
  btl_value : string; btl_display : string
}.

Definition rated_json (r : rated) : json :=
  danger_rating (on_date r) (band (alp_value r) (alp_display r))
    (band (tln_value r) (tln_display r)) (band (btl_value r) (btl_display r)).

(** The rating sentence for an entry. *)
Definition rated_sentence (r : rated) : string :=
  "Avalanche Canada danger: Alpine " +:+ alp_display r +:+ ", Treeline "
  +:+ tln_display r +:+ ", Below treeline " +:+ btl_display r +:+ ".".

(** The colors a rated banner can take. *)
Definition palette : list string :=
  ["var(--green)"; "var(--danger-moderate)"; "var(--danger-considerable)";
   "var(--danger-high)"].

(** A feed with a day block and a night block for Sunday, and one for
    Monday. *)
Definition sample_feed : list EcBlock :=
  [ mk_ec "Sunday" "Flurries." (Some (-3)) (Some "high");
    mk_ec "Sunday night" "Clearing." (Some (-9)) (Some "low");
    mk_ec "MONDAY" "Sunny." (Some 1) (Some "high") ].

(** One region of the metadata catalog, of the expected shape: the title
    and slug of its product, and its centroid (latitude, longitude) when
    it has one. *)
Record catalog_entry : Type := mk_entry {
  ce_title : string;
  ce_slug : string;
  ce_centroid : option (Q * Q)
}.

Definition entry_json (e : catalog_entry) : json :=
  JObj (("product", JObj [("title", JStr (ce_title e)); ("slug", JStr (ce_slug e))])
        :: match ce_centroid e with
           | Some (lat, lon) =>
               [("centroid", JObj [("longitude", JFloat lon); ("latitude", JFloat lat)])]
           | None => []
           end).

(** The title names the range, in any letter case. *)
Definition named (e : catalog_entry) : bool := name_match (lower (ce_title e)).


(** What [fetch_avalanche_canada] returns once the region is chosen. *)
Definition bulletin_for (fetch_product : json -> res json) (e : catalog_entry)
    : res json :=
  if String.eqb (ce_slug e) "" then Ok (half_populated (entry_json e))
  else product ← fetch_product (JStr (ce_slug e));
       Ok (JObj [("region", entry_json e); ("product", product)]).

(** A catalog without a name match: the second region is the nearest. *)
Definition sample_catalog : list catalog_entry :=
  [ mk_entry "Purcells" "purcells" (Some (50 # 1, - (116 # 1))%Q);
    mk_entry "Selkirks" "" (Some (5140 # 100, - (11790 # 100))%Q);
    mk_entry "Cariboos" "cariboos" None ].

(** A directory listing with one link to the station's document. *)
Definition sample_listing : string :=
  "<a " +:+ href_open +:+ "20260301T0500Z_MSC_CitypageWeather_s0000679_en.xml"
  +:+ String dquote ">doc</a>".

(** Only the 05 directory answers. *)
Definition sample_fetch_text (url : string) : unit + string :=
  if String.eqb url (ec_dir_url 5) then inr sample_listing
  else if String.prefix (ec_dir_url 5) url then inr "<siteData/>"
  else inl tt.

Definition sample_parse (xml_text : string) : unit + list EcBlock :=
  inr [mk_ec "Sunday" "Flurries." None None].

(** A match of the tag pattern starts at the head of [s]. *)
Definition tag_at (s : string) : bool :=
  match s with
  | String c s' => Ascii.eqb c "<" && tag_body s'
  | EmptyString => false
  end.

(** The tag pattern matches somewhere in [s]. *)
Fixpoint has_tag (s : string) : bool :=
  tag_at s ||
  match s with
  | String _ s' => has_tag s'
  | EmptyString => false
  end.

Definition ascii_text (s : string) : Prop :=
  Forall (fun c => (nat_of_ascii c < 128)%nat) (list_ascii_of_string s).

Definition sample_markup : string :=
  " <p>Storm <b>slab</b> on lee slopes, 30 < 40 cm.</p> ".

(** * Properties *)

(** ** The error monad *)

Lemma bind_Ok_inv {A B} (m : res A) (f : A -> res B) (b : B) :
  m ≫= f = Ok b -> exists a, m = Ok a /\ f a = Ok b.
Proof. destruct m as [a|e]; simpl; [eauto | discriminate]. Qed.

Lemma fmap_Ok_inv {A B} (f : A -> B) (m : res A) (b : B) :
  f <$> m = Ok b -> exists a, m = Ok a /\ b = f a.
Proof. destruct m as [a|e]; simpl; [|discriminate]. intros [= <-]. eauto. Qed.

(** Peel the leading binds of a hypothesis [H : ... = Ok _]. *)
Ltac inv_bind H :=
  repeat match type of H with
  | (?m ≫= ?f) = Ok _ =>
      let x := fresh "x" in
      let E := fresh "E" in
      apply bind_Ok_inv in H as (x & E & H)
  end.

(** ** Rounding *)

Lemma py_round_comp (x y : Q) : (x == y)%Q -> py_round x = py_round y.
Proof.
  intros E. unfold py_round.
  rewrite (Qfloor_comp _ _ E).
  assert (E' : (x - inject_Z (Qfloor y) == y - inject_Z (Qfloor y))%Q)
    by (rewrite E; reflexivity).
  rewrite (Qcompare_comp _ _ E' (1 # 2) (1 # 2) (Qeq_refl _)).
  reflexivity.
Qed.

Lemma py_round_frac (a : Z) (b : positive) : py_round (a # b) = round_frac a b.
Proof.
  unfold py_round, round_frac.
  change (Qfloor (a # b)) with (a / Z.pos b).
  set (f := a / Z.pos b).
  assert (C : Qcompare ((a # b) - inject_Z f) (1 # 2)
              = (2 * (a mod Z.pos b) ?= Z.pos b)).
  { unfold Qcompare, Qminus, Qplus, Qopp, inject_Z. simpl Qnum. simpl Qden.
    rewrite Z.mod_eq by lia. fold f.
    rewrite !Pos2Z.inj_mul.
    f_equal; lia. }
  rewrite C. reflexivity.
Qed.

Lemma Qfloor_add_Z (x : Q) (n : Z) : Qfloor (x + inject_Z n) = Qfloor x + n.
Proof.
  destruct x as [a b]. unfold Qplus, inject_Z, Qfloor. simpl Qnum. simpl Qden.
  rewrite Pos.mul_1_r, Z.mul_1_r. apply Z.div_add. lia.
Qed.

Lemma py_mod360_periodic (d : Q) (n : Z) :
  (py_mod360 (d + 360 * inject_Z n) == py_mod360 d)%Q.
Proof.
  unfold py_mod360.
  assert (E : ((d + 360 * inject_Z n) / 360 == d / 360 + inject_Z n)%Q) by field.
  rewrite (Qfloor_comp _ _ E), Qfloor_add_Z, inject_Z_plus. ring.
Qed.

Lemma py_mod360_Z (k : Z) : (py_mod360 (inject_Z k) == inject_Z (k mod 360))%Q.
Proof.
  unfold py_mod360.
  assert (F : Qfloor (inject_Z k / 360) = k / 360).
  { unfold Qdiv, Qmult, Qinv, inject_Z, Qfloor. simpl. now rewrite Z.mul_1_r. }
  rewrite F, Z.mod_eq by lia.
  unfold Z.sub. rewrite inject_Z_plus, inject_Z_opp, inject_Z_mult. reflexivity.
Qed.

(** ** Compass bucketing *)

Lemma round_frac_45 (r : Z) : round_frac r 45 = (2 * r + 45) / 90.
Proof.
  unfold round_frac.
  destruct (Z.compare_spec (2 * (r mod 45)) 45) as [E|L|G];
    [exfalso; lia | |]; Z.to_euclidean_division_equations; lia.
Qed.

Lemma compass_round_Z (k : Z) :
  py_round (py_mod360 (inject_Z k) / 45) = (2 * (k mod 360) + 45) / 90.
Proof.
  rewrite <- round_frac_45, <- py_round_frac.
  apply py_round_comp. rewrite py_mod360_Z.
  unfold Qeq, Qdiv, Qmult, Qinv, inject_Z. simpl. lia.
Qed.

Lemma deg_to_compass_Z (k : Z) :
  deg_to_compass (Some (inject_Z k))
  = idx dirs (Z.to_nat (((2 * (k mod 360) + 45) / 90) mod 8)).
Proof. unfold deg_to_compass. now rewrite compass_round_Z. Qed.

Lemma deg_to_compass_periodic (d : Q) (n : Z) :
  deg_to_compass (Some (d + 360 * inject_Z n)%Q) = deg_to_compass (Some d).
Proof.
  unfold deg_to_compass. f_equal. f_equal. f_equal.
  apply py_round_comp. now rewrite py_mod360_periodic.
Qed.

(** The bucket index is always a valid position of [dirs]. *)
Lemma deg_to_compass_Ok (deg : option Q) : is_Ok (deg_to_compass deg).
Proof.
  destruct deg as [d|]; [|now exists "--"].
  unfold deg_to_compass, idx.
  pose proof (Z.mod_pos_bound (py_round (py_mod360 d / 45)) 8 ltac:(lia)) as B.
  destruct (dirs !! Z.to_nat (py_round (py_mod360 d / 45) mod 8)) as [s|] eqn:E;
    [now exists s|].
  apply lookup_ge_None in E. simpl in E. lia.
Qed.

Lemma Z_range_In (lo : Z) (n : nat) (z : Z) :
  lo <= z < lo + Z.of_nat n -> In z (Z_range lo n).
Proof.
  intros B. unfold Z_range. apply in_map_iff.
  exists (Z.to_nat (z - lo)). split; [lia|]. apply in_seq. lia.
Qed.

Lemma option_Z_eqb_eq a b : option_Z_eqb a b = true -> a = b.
Proof.
  destruct a, b; simpl; try discriminate; try reflexivity.
  intros E. apply Z.eqb_eq in E. now subst.
Qed.

(** On whole degrees the binary64 evaluation of [round(deg % 360 / 45) % 8]
    is the exact one. *)
Lemma compass_index_b64_agrees (k : Z) :
  compass_index_b64 k = Some (((2 * (k mod 360) + 45) / 90) mod 8).
Proof.
  assert (A : forallb (fun r => option_Z_eqb (compass_index_b64 r)
                                  (Some (((2 * (r mod 360) + 45) / 90) mod 8)))
                (Z_range 0 360) = true) by (vm_compute; reflexivity).
  rewrite forallb_forall in A.
  pose proof (Z.mod_pos_bound k 360 ltac:(lia)) as B.
  specialize (A (k mod 360) (Z_range_In 0 360 (k mod 360) ltac:(lia))).
  apply option_Z_eqb_eq in A.
  unfold compass_index_b64 in *. rewrite Z.mod_mod in A by lia. exact A.
Qed.

(** ** Freezing level *)

Lemma round_frac_13 (a : Z) : round_frac a 13 = (2 * a + 13) / 26.
Proof.
  unfold round_frac.
  destruct (Z.compare_spec (2 * (a mod 13)) 13) as [E|L|G];
    [exfalso; lia | |]; Z.to_euclidean_division_equations; lia.
Qed.

(** For a whole temperature the freezing level has a closed form: the lapse
    term is [2000 t / 13], which is never half-way between two integers. *)
Lemma freezing_level_Z (t e : Z) :
  freezing_level (inject_Z t) (inject_Z e) = e + (4000 * t + 13) / 26.
Proof.
  unfold freezing_level.
  rewrite (py_round_comp _ ((13 * e + 2000 * t) # 13)).
  - rewrite py_round_frac, round_frac_13.
    Z.to_euclidean_division_equations; lia.
  - unfold Qeq, Qplus, Qdiv, Qmult, Qinv, inject_Z. simpl. lia.
Qed.

(** On whole temperatures from -100 to 100 degrees the binary64 evaluation
    of the freezing level at the mountain elevation is the exact one. *)
Lemma freezing_level_b64_agrees (t : Z) :
  -100 <= t <= 100 ->
  freezing_level_b64 t mountain_elev
  = Some (freezing_level (inject_Z t) (inject_Z mountain_elev)).
Proof.
  intros B.
  assert (A : forallb (fun t => option_Z_eqb (freezing_level_b64 t mountain_elev)
                  (Some (freezing_level (inject_Z t) (inject_Z mountain_elev))))
                (Z_range (-100) 201) = true) by (vm_compute; reflexivity).
  rewrite forallb_forall in A.
  apply option_Z_eqb_eq, A, Z_range_In. lia.
Qed.

(** ** Period summaries *)

Lemma in_range_false (s e hr : Z) :
  ~ (s <= hr < e) -> (s <=? hr) && (hr <? e) = false.
Proof. intros N. destruct (Z.leb_spec s hr), (Z.ltb_spec hr e); simpl; try reflexivity; lia. Qed.

Lemma in_range_true (s e hr : Z) :
  (s <=? hr) && (hr <? e) = true -> s <= hr < e.
Proof. destruct (Z.leb_spec s hr), (Z.ltb_spec hr e); simpl; try discriminate; lia. Qed.

Lemma collect_rows_nil_iff (h : Hourly) (date_str : string) (s e : Z)
    (ts : list string) (i : nat) :
  collect_rows h date_str s e i ts = Ok [] <-> Forall (no_match date_str s e) ts.
Proof.
  revert i. induction ts as [|t ts IH]; intros i; simpl.
  - split; [constructor | reflexivity].
  - destruct (String.prefix date_str t) eqn:P.
    + destruct (hour_of t) as [hr|err] eqn:Hh; simpl.
      * destruct ((s <=? hr) && (hr <? e)) eqn:R.
        -- split.
           ++ intros H. destruct (hourly_row h i); simpl in H; [|discriminate].
              destruct (collect_rows h date_str s e (S i) ts); simpl in H; discriminate.
           ++ intros F. inversion F as [|? ? N _]; subst.
              destruct (N P) as (hr' & E & Out). rewrite Hh in E. injection E as <-.
              apply in_range_true in R. contradiction.
        -- rewrite IH. split.
           ++ intros F. constructor; [|exact F].
              intros _. exists hr. split; [exact Hh|].
              intros In. destruct (Z.leb_spec s hr), (Z.ltb_spec hr e); simpl in R;
                try discriminate; lia.
           ++ intros F. now inversion F.
      * split; [discriminate|].
        intros F. inversion F as [|? ? N _]; subst.
        destruct (N P) as (hr' & E & _). rewrite Hh in E. discriminate.
    + rewrite IH. split.
      * intros F. constructor; [|exact F]. intros P'. rewrite P in P'. discriminate.
      * intros F. now inversion F.
Qed.

Lemma extract_None_iff (h : Hourly) (date_str : string) (s e : Z) :
  extract_hourly_period h date_str s e = Ok None
  <-> Forall (no_match date_str s e) (h_time h).
Proof.
  rewrite <- (collect_rows_nil_iff h date_str s e (h_time h) 0).
  unfold extract_hourly_period.
  destruct (collect_rows h date_str s e 0 (h_time h)) as [[|r rs]|err]; simpl.
  - split; reflexivity.
  - split; [|discriminate]. destruct (summarize r rs); simpl; discriminate.
  - split; discriminate.
Qed.

(** A summary that exists was computed from at least one matching hour. *)
Lemma extract_Some_matching (h : Hourly) (date_str : string) (s e : Z) (p : Period.t) :
  extract_hourly_period h date_str s e = Ok (Some p) ->
  Exists (fun t => String.prefix date_str t = true /\
                   exists hr, hour_of t = Ok hr /\ s <= hr < e) (h_time h).
Proof.
  unfold extract_hourly_period. generalize 0%nat as i.
  induction (h_time h) as [|t ts IH]; intros i; simpl; [discriminate|].
  destruct (String.prefix date_str t) eqn:P.
  - destruct (hour_of t) as [hr|err] eqn:Hh; simpl; [|discriminate].
    destruct ((s <=? hr) && (hr <? e)) eqn:R.
    + intros _. left. split; [exact P|]. exists hr. split; [exact Hh|].
      now apply in_range_true.
    + intros H. right. exact (IH _ H).
  - intros H. right. exact (IH _ H).
Qed.

(** ** [process_day] *)

Lemma process_day_inv (date_str : string) (mtn val : Forecast) (d : Day.t) :
  process_day date_str mtn val = Ok (Some d) ->
  exists day_idx m v am pm night all_day desc icon df dw,
    index_of date_str (d_time (daily mtn)) = Some day_idx
    /\ mountain_stats (daily mtn) day_idx = Ok m
    /\ valley_stats (daily val) date_str = Ok v
    /\ extract_hourly_period (hourly mtn) date_str 6 12 = Ok am
    /\ extract_hourly_period (hourly mtn) date_str 12 18 = Ok pm
    /\ extract_hourly_period (hourly mtn) date_str 18 24 = Ok night
    /\ extract_hourly_period (hourly mtn) date_str 6 24 = Ok all_day
    /\ wmo_info (Mtn.weather_code m) = Ok (desc, icon)
    /\ fmt_date date_str = Ok df
    /\ day_of_week date_str = Ok dw
    /\ d = Day.mk date_str df dw icon desc m v am pm night
             (match all_day with Some p => Period.cloud_avg p | None => 50 end)
             (freezing_level (inject_Z (Mtn.high m)) (inject_Z mountain_elev)).
Proof.
  unfold process_day.
  destruct (index_of date_str (d_time (daily mtn))) as [day_idx|]; [|discriminate].
  intros H. inv_bind H. destruct x5 as [desc icon]. inv_bind H.
  injection H as <-.
  do 11 eexists.
  repeat (split; [first [reflexivity | eassumption]|]). reflexivity.
Qed.

Lemma process_day_absent (date_str : string) (mtn val : Forecast) :
  index_of date_str (d_time (daily mtn)) = None ->
  process_day date_str mtn val = Ok None.
Proof. intros E. unfold process_day. now rewrite E. Qed.

Lemma process_day_None_absent (date_str : string) (mtn val : Forecast) :
  process_day date_str mtn val = Ok None ->
  index_of date_str (d_time (daily mtn)) = None.
Proof.
  unfold process_day.
  destruct (index_of date_str (d_time (daily mtn))) as [i|]; [|reflexivity].
  intros H. inv_bind H. destruct x5. inv_bind H. discriminate.
Qed.

(** ** Weather codes *)

Lemma wmo_info_eq (code : option Z) :
  wmo_info code = Ok (default overcast (code ≫= fun c => WMO !! c)).
Proof.
  assert (D : dict_item WMO 3 = Ok overcast) by (vm_compute; reflexivity).
  unfold wmo_info. rewrite D. reflexivity.
Qed.

(** C10. The weather-code lookup is total: [wmo_info] returns a
    (description, icon) pair for every code, the table's entry when the code
    is a key of the table, and the "Overcast" entry for [None] and for every
    code that is not a key; it never raises. *)
Theorem wmo_info_total (code : option Z) :
  wmo_info code = Ok (default overcast (code ≫= fun c => WMO !! c))
  /\ wmo_info None = Ok overcast
  /\ (forall c : Z, c ∉ WMO_table.*1 -> wmo_info (Some c) = Ok overcast).
Proof.
  split; [apply wmo_info_eq|]. split; [apply wmo_info_eq|].
  intros c N. apply not_elem_of_list_to_map_1 in N.
  rewrite wmo_info_eq. change (Some c ≫= fun c => WMO !! c) with (WMO !! c).
  unfold WMO. now rewrite N.
Qed.

(** ** Compass bucketing, as the design states it *)

(** C4, counterexample. 44 and 46 degrees do not straddle two buckets: both
    are bucketed as "NE", and neither as "N". *)
Lemma compass_44_46_same_bucket :
  deg_to_compass (Some 44%Q) = Ok "NE"
  /\ deg_to_compass (Some 46%Q) = Ok "NE"
  /\ ~ (deg_to_compass (Some 44%Q) <> deg_to_compass (Some 46%Q)).
Proof.
  split; [vm_compute; reflexivity|]. split; [vm_compute; reflexivity|].
  intros N. apply N. vm_compute. reflexivity.
Qed.

(** C4, amended. Bucketing by [round(deg % 360 / 45) % 8] is periodic with
    period 360; on whole degrees the bucket is [((2 (deg mod 360) + 45) / 90)
    mod 8], which the binary64 evaluation yields as well; 359 and 1 are "N";
    44 and 46 are both "NE", whose bucket runs from 22.5 to 67.5: 22 is "N",
    23 and 67 are "NE", 68 is "E", and the two half-way values go to the even
    index (22.5 is "N", 67.5 is "E"). *)
Theorem compass_periodic_buckets :
  (forall (d : Q) (n : Z),
      deg_to_compass (Some (d + 360 * inject_Z n)%Q) = deg_to_compass (Some d))
  /\ (forall k : Z,
         deg_to_compass (Some (inject_Z k))
         = idx dirs (Z.to_nat (((2 * (k mod 360) + 45) / 90) mod 8))
         /\ compass_index_b64 k = Some (((2 * (k mod 360) + 45) / 90) mod 8))
  /\ deg_to_compass (Some 359%Q) = Ok "N"
  /\ deg_to_compass (Some 1%Q) = Ok "N"
  /\ deg_to_compass (Some 44%Q) = Ok "NE"
  /\ deg_to_compass (Some 46%Q) = Ok "NE"
  /\ deg_to_compass (Some 22%Q) = Ok "N"
  /\ deg_to_compass (Some 23%Q) = Ok "NE"
  /\ deg_to_compass (Some 67%Q) = Ok "NE"
  /\ deg_to_compass (Some 68%Q) = Ok "E"
  /\ deg_to_compass (Some (225 # 10)%Q) = Ok "N"
  /\ deg_to_compass (Some (675 # 10)%Q) = Ok "E".
Proof.
  split; [exact deg_to_compass_periodic|].
  split; [|repeat split; vm_compute; reflexivity].
  intros k. split; [apply deg_to_compass_Z | apply compass_index_b64_agrees].
Qed.

(** ** Freezing level *)

(** C5. For every day record built by [process_day], the freezing level is
    the mountain elevation plus [(high / 6.5) * 1000], rounded, where [high]
    is the record's (whole) mountain high; in integer arithmetic this is
    [1900 + (4000 high + 13) / 26]. A high of 5 at 1900 m gives 2669 m, in
    exact arithmetic and in binary64. *)
Theorem freezing_level_formula (date_str : string) (mtn val : Forecast) (d : Day.t) :
  process_day date_str mtn val = Ok (Some d) ->
  Day.freezing_level d
  = py_round (inject_Z mountain_elev
              + (inject_Z (Mtn.high (Day.mountain d)) / (65 # 10)) * 1000)%Q
  /\ Day.freezing_level d = 1900 + (4000 * Mtn.high (Day.mountain d) + 13) / 26
  /\ freezing_level 5 1900 = 2669
  /\ freezing_level_b64 5 1900 = Some 2669.
Proof.
  intros H. apply process_day_inv in H
    as (i & m & v & am & pm & night & all_day & desc & icon & df & dw & H).
  destruct H as (_ & _ & _ & _ & _ & _ & _ & _ & _ & _ & ->). simpl.
  split; [reflexivity|]. split; [apply freezing_level_Z|].
  split; vm_compute; reflexivity.
Qed.

Lemma freezing_level_formula_witness :
  exists d, process_day "2026-03-01" sample_forecast sample_forecast = Ok (Some d)
            /\ Mtn.high (Day.mountain d) = 5
            /\ Day.freezing_level d = 2669.
Proof.
  eexists. split; [vm_compute; reflexivity|]. split; [vm_compute; reflexivity|].
  refine (eq_trans (proj1 (proj2 (freezing_level_formula
            "2026-03-01" sample_forecast sample_forecast _ _))) _);
    vm_compute; reflexivity.
Defined.

(** ** Absent period summaries *)

(** C7. For every date and hour range, when no time stamp of the hourly
    series falls on that date within that range, [extract_hourly_period]
    returns the absent summary [None], not a record; in particular the
    morning summary ([6,12)) of the day record is then absent. *)
Theorem no_matching_hours_absent (date_str : string) (mtn val : Forecast)
    (start_h end_h : Z) :
  Forall (no_match date_str start_h end_h) (h_time (hourly mtn)) ->
  extract_hourly_period (hourly mtn) date_str start_h end_h = Ok None
  /\ (start_h = 6 -> end_h = 12 ->
      forall d, process_day date_str mtn val = Ok (Some d) -> Day.am d = None).
Proof.
  intros F. pose proof (proj2 (extract_None_iff _ _ _ _) F) as E.
  split; [exact E|]. intros -> -> d H.
  apply process_day_inv in H
    as (i & m & v & am & pm & night & all_day & desc & icon & df & dw & H).
  destruct H as (_ & _ & _ & Ham & _ & _ & _ & _ & _ & _ & ->). simpl.
  rewrite E in Ham. now injection Ham as <-.
Qed.

Lemma sample_no_morning_hours :
  Forall (no_match "2026-03-01" 6 12) (h_time (hourly sample_forecast)).
Proof.
  repeat constructor; intros P; try discriminate P;
    eexists; (split; [vm_compute; reflexivity | lia]).
Qed.

Lemma no_matching_hours_absent_witness :
  extract_hourly_period (hourly sample_forecast) "2026-03-01" 6 12 = Ok None
  /\ exists d, process_day "2026-03-01" sample_forecast sample_forecast = Ok (Some d)
               /\ Day.am d = None /\ Day.night d <> None.
Proof.
  pose proof (no_matching_hours_absent "2026-03-01" sample_forecast
                sample_forecast 6 12 sample_no_morning_hours) as [E A].
  split; [exact E|]. eexists. split; [vm_compute; reflexivity|].
  split; [|vm_compute; discriminate].
  apply (A eq_refl eq_refl). vm_compute. reflexivity.
Defined.

(** ** Average cloud cover *)

(** C3, counterexample. The hourly series has entries for 2 March (from
    00:00 to 03:00, cloud cover 90 and more), yet the day's [avg_cloud] is
    the default 50: the full-day summary only looks at hours 6 to 23. *)
Lemma avg_cloud_default_despite_hourly_data :
  exists d, process_day "2026-03-02" sample_forecast sample_forecast = Ok (Some d)
            /\ Day.avg_cloud d = 50
            /\ extract_hourly_period (hourly sample_forecast) "2026-03-02" 6 24 = Ok None
            /\ h_time (hourly sample_forecast) !! 4%nat = Some "2026-03-02T00:00"
            /\ String.prefix "2026-03-02" "2026-03-02T00:00" = true
            /\ h_cloudcover (hourly sample_forecast) !! 4%nat = Some (Some 90%Q).
Proof. eexists. repeat split; vm_compute; reflexivity. Qed.

(** C3, amended. For every day record built by [process_day], [avg_cloud]
    is the [cloud_avg] of the full-day summary over hours [6,24) of the
    mountain hourly series when that summary exists, and the default 50
    exactly when it is absent, that is when no time stamp of the date has
    its hour in [6,24). *)
Theorem avg_cloud_from_full_day (date_str : string) (mtn val : Forecast) (d : Day.t) :
  process_day date_str mtn val = Ok (Some d) ->
  exists all_day,
    extract_hourly_period (hourly mtn) date_str 6 24 = Ok all_day
    /\ Day.avg_cloud d
       = match all_day with Some p => Period.cloud_avg p | None => 50 end
    /\ (all_day = None <-> Forall (no_match date_str 6 24) (h_time (hourly mtn))).
Proof.
  intros H. apply process_day_inv in H
    as (i & m & v & am & pm & night & all_day & desc & icon & df & dw & H).
  destruct H as (_ & _ & _ & _ & _ & _ & Hall & _ & _ & _ & ->). simpl.
  exists all_day. split; [exact Hall|]. split; [reflexivity|].
  rewrite <- extract_None_iff, Hall. split; [now intros ->|now intros [= ->]].
Qed.

Lemma avg_cloud_from_full_day_witness :
  exists d all_day,
    process_day "2026-03-01" sample_forecast sample_forecast = Ok (Some d)
    /\ extract_hourly_period (hourly sample_forecast) "2026-03-01" 6 24 = Ok (Some all_day)
    /\ Day.avg_cloud d = Period.cloud_avg all_day
    /\ Day.avg_cloud d = 32.
Proof.
  destruct (avg_cloud_from_full_day "2026-03-01" sample_forecast sample_forecast
              _ ltac:(vm_compute; reflexivity)) as (all_day & E & A & _).
  vm_compute in E. injection E as <-.
  eexists _, _. repeat split; vm_compute; reflexivity.
Defined.

(** ** Week outlook *)

Lemma is_best_iff (d : Day.t) :
  is_best d = true <-> Day.avg_cloud d < 50 /\ Mtn.wind_max (Day.mountain d) < 15.
Proof. unfold is_best. rewrite andb_true_iff, !Z.ltb_lt. reflexivity. Qed.

Lemma best_days_In (days : list Day.t) (s : string) :
  In s (best_days days) <->
  exists d, In d days /\ s = Day.date_fmt d
            /\ Day.avg_cloud d < 50 /\ Mtn.wind_max (Day.mountain d) < 15.
Proof.
  unfold best_days. rewrite in_map_iff. split.
  - intros (d & <- & I). apply filter_In in I as [I B].
    apply is_best_iff in B. exists d. tauto.
  - intros (d & I & -> & B). exists d. split; [reflexivity|].
    apply filter_In. split; [exact I|]. now apply is_best_iff.
Qed.

Lemma Qltb_0_zero (q : Q) : (q == 0)%Q -> Qltb 0 q = false.
Proof.
  intros E. unfold Qltb.
  rewrite (Qcompare_comp 0%Q 0%Q (Qeq_refl 0%Q) q 0%Q E). reflexivity.
Qed.

Lemma week_outlook_parts_eq (d0 : Day.t) (rest : list Day.t) :
  exists clear_days snow_days temp_low temp_high,
    week_outlook_parts (d0 :: rest)
    = Ok ([outlook_header clear_days snow_days; temps_clause temp_low temp_high]
          ++ (if Qltb 0 (total_snow (d0 :: rest))
              then [snow_clause (total_snow (d0 :: rest))] else [])
          ++ match best_days (d0 :: rest) with
             | [] => []
             | b => [best_clause b]
             end).
Proof.
  do 4 eexists. unfold week_outlook_parts.
  cbn [map Zmax_of Zmin_of mbind res_bind].
  destruct (Qltb 0 (total_snow (d0 :: rest)));
    destruct (best_days (d0 :: rest)); reflexivity.
Qed.

Lemma header_no_clause (cd sd : Z) :
  String.prefix best_words (outlook_header cd sd) = false
  /\ String.prefix snow_words (outlook_header cd sd) = false.
Proof. split; reflexivity. Qed.

Lemma temps_no_clause (tl th : Z) :
  String.prefix best_words (temps_clause tl th) = false
  /\ String.prefix snow_words (temps_clause tl th) = false.
Proof. split; reflexivity. Qed.

Lemma snow_clause_not_best (q : Q) :
  String.prefix best_words (snow_clause q) = false.
Proof. reflexivity. Qed.

Lemma best_clause_not_snow (b : list string) :
  String.prefix snow_words (best_clause b) = false.
Proof. reflexivity. Qed.

(** Decide [has_clause] on a list whose parts are known not to match. *)
Ltac no_clause H :=
  unfold has_clause in H;
  repeat (apply Exists_cons in H as [H|H];
          [first [ rewrite (proj1 (header_no_clause _ _)) in H
                 | rewrite (proj2 (header_no_clause _ _)) in H
                 | rewrite (proj1 (temps_no_clause _ _)) in H
                 | rewrite (proj2 (temps_no_clause _ _)) in H
                 | rewrite snow_clause_not_best in H
                 | rewrite best_clause_not_snow in H ]; discriminate H|]);
  apply Exists_nil in H; exact H.

(** C6. The "best days" list of the week outlook holds exactly the
    formatted dates of the days with [avg_cloud < 50] and mountain max wind
    [< 15], both strict (a day with wind exactly 15, or cloud exactly 50,
    does not qualify); the best-days clause is the last part when the list
    is not empty and no part when it is empty; and no total-snowfall clause
    appears when the week's total snowfall is zero. *)
Theorem week_outlook_best_days (days : list Day.t) :
  days <> [] ->
  exists parts,
    week_outlook_parts days = Ok parts
    /\ gen_week_outlook days = Ok (join " " parts)
    /\ (forall s, In s (best_days days) <->
          exists d, In d days /\ s = Day.date_fmt d
                    /\ Day.avg_cloud d < 50 /\ Mtn.wind_max (Day.mountain d) < 15)
    /\ (forall d, Mtn.wind_max (Day.mountain d) = 15 -> is_best d = false)
    /\ (forall d, Day.avg_cloud d = 50 -> is_best d = false)
    /\ (best_days days = [] -> ~ has_clause best_words parts)
    /\ (best_days days <> [] -> last parts = Some (best_clause (best_days days)))
    /\ ((total_snow days == 0)%Q -> ~ has_clause snow_words parts).
Proof.
  intros NE. destruct days as [|d0 rest]; [contradiction|].
  destruct (week_outlook_parts_eq d0 rest) as (cd & sd & tl & th & E).
  eexists. split; [exact E|].
  split; [unfold gen_week_outlook; rewrite E; reflexivity|].
  split; [apply best_days_In|].
  split; [intros d W; unfold is_best; rewrite W, andb_false_r; reflexivity|].
  split; [intros d C; unfold is_best; rewrite C; reflexivity|].
  split; [|split].
  - intros B. rewrite B.
    destruct (Qltb 0 (total_snow (d0 :: rest))); cbn [app]; intros H; no_clause H.
  - intros B. destruct (best_days (d0 :: rest)) as [|b bs]; [contradiction|].
    destruct (Qltb 0 (total_snow (d0 :: rest))); reflexivity.
  - intros Z0. rewrite (Qltb_0_zero _ Z0).
    destruct (best_days (d0 :: rest)); cbn [app]; intros H; no_clause H.
Qed.

Lemma week_outlook_best_days_witness :
  exists parts,
    week_outlook_parts sample_week = Ok parts
    /\ best_days sample_week = ["Mon, Mar 2"]
    /\ last parts = Some "Best days for big objectives: Mon, Mar 2.".
Proof.
  destruct (week_outlook_best_days sample_week ltac:(discriminate))
    as (parts & E & _ & _ & _ & _ & _ & L & _).
  exists parts. split; [exact E|]. split; [vm_compute; reflexivity|].
  rewrite L by (vm_compute; discriminate). vm_compute. reflexivity.
Defined.

(** ** Avalanche bulletins *)

Lemma levels_range (s : string) (z : Z) : levels !! s = Some z -> 1 <= z <= 5.
Proof.
  intros H. apply elem_of_list_to_map_2 in H.
  repeat (apply elem_of_cons in H as [H|H]; [injection H as -> ->; lia|]).
  now apply elem_of_nil in H.
Qed.

Lemma lvl_nonneg (s : string) : 0 <= lvl s.
Proof.
  unfold lvl. destruct (levels !! s) as [z|] eqn:E; simpl; [|lia].
  apply levels_range in E. lia.
Qed.

Lemma banner_step_spec (today : json) (acc : Z * string) (elev v : string) :
  0 <= fst acc ->
  band_field today elev "value" (JStr "") = Ok (JStr v) ->
  banner_step today acc elev
  = Ok (if fst acc <? lvl v then (lvl v, v) else acc).
Proof.
  intros A B. unfold banner_step. rewrite B.
  cbn [mbind res_bind levels_get]. fold (lvl v).
  destruct (Z.ltb_spec (fst acc) (lvl v)) as [L|L]; [|reflexivity].
  unfold lvl in *. unfold dict_item.
  destruct (levels !! v) as [z|]; simpl in *; [reflexivity | lia].
Qed.

(** The loop over the three bands computes the largest ordinal, and keeps
    the name of a band that reaches it. *)
Lemma banner_fold_spec (today : json) (va vt vb : string) :
  band_field today "alp" "value" (JStr "") = Ok (JStr va) ->
  band_field today "tln" "value" (JStr "") = Ok (JStr vt) ->
  band_field today "btl" "value" (JStr "") = Ok (JStr vb) ->
  exists name,
    (acc ← banner_step today (0, "low") "alp";
     acc ← banner_step today acc "tln";
     banner_step today acc "btl")
    = Ok (Z.max (lvl va) (Z.max (lvl vt) (lvl vb)), name)
    /\ ((name = "low" /\ lvl va = 0 /\ lvl vt = 0 /\ lvl vb = 0)
        \/ (In name [va; vt; vb]
            /\ lvl name = Z.max (lvl va) (Z.max (lvl vt) (lvl vb)))).
Proof.
  intros Ha Ht Hb.
  pose proof (lvl_nonneg va) as Na. pose proof (lvl_nonneg vt) as Nt.
  pose proof (lvl_nonneg vb) as Nb.
  rewrite (banner_step_spec _ _ _ va) by (simpl; try lia; assumption).
  cbn [mbind res_bind fst].
  destruct (Z.ltb_spec 0 (lvl va)) as [La|La].
  - rewrite (banner_step_spec _ _ _ vt) by (simpl; try lia; assumption).
    cbn [mbind res_bind fst].
    destruct (Z.ltb_spec (lvl va) (lvl vt)) as [Lt|Lt].
    + rewrite (banner_step_spec _ _ _ vb) by (simpl; try lia; assumption).
      cbn [fst].
      destruct (Z.ltb_spec (lvl vt) (lvl vb)) as [Lb|Lb]; eexists;
        (split; [f_equal; f_equal; lia|]); right; simpl; split; auto; lia.
    + rewrite (banner_step_spec _ _ _ vb) by (simpl; try lia; assumption).
      cbn [fst].
      destruct (Z.ltb_spec (lvl va) (lvl vb)) as [Lb|Lb]; eexists;
        (split; [f_equal; f_equal; lia|]); right; simpl; split; auto; lia.
  - rewrite (banner_step_spec _ _ _ vt) by (simpl; try lia; assumption).
    cbn [mbind res_bind fst].
    destruct (Z.ltb_spec 0 (lvl vt)) as [Lt|Lt].
    + rewrite (banner_step_spec _ _ _ vb) by (simpl; try lia; assumption).
      cbn [fst].
      destruct (Z.ltb_spec (lvl vt) (lvl vb)) as [Lb|Lb]; eexists;
        (split; [f_equal; f_equal; lia|]); right; simpl; split; auto; lia.
    + rewrite (banner_step_spec _ _ _ vb) by (simpl; try lia; assumption).
      cbn [fst].
      destruct (Z.ltb_spec 0 (lvl vb)) as [Lb|Lb]; eexists;
        (split; [f_equal; f_equal; lia|]).
      * right; simpl; split; auto; lia.
      * left. repeat split; lia.
Qed.

(** X14. On a bulletin of the expected shape: the level is the largest
    ordinal of the three bands of the first entry, the color is that of a band
    reaching it, and the label is the display text of the alpine band
    whenever that text is not empty. *)
Lemma avy_banner_spec (region : json) (date va da vt dt vb db : string)
    (more : list json) :
  let M := Z.max (lvl va) (Z.max (lvl vt) (lvl vb)) in
  exists name,
    avy_banner (bulletin region
                  (danger_rating date (band va da) (band vt dt) (band vb db) :: more))
    = Ok (Banner.mk (JInt M)
            (if String.eqb da "" then JStr (pretty M +:+ " - " +:+ title name)
             else JStr da)
            (default "var(--text-muted)" (colors !! name)))
    /\ ((name = "low" /\ M = 0) \/ (In name [va; vt; vb] /\ lvl name = M)).
Proof.
  intros M.
  set (today := JObj [("alp", band va da); ("tln", band vt dt); ("btl", band vb db)]).
  destruct (banner_fold_spec today va vt vb eq_refl eq_refl eq_refl)
    as (name & F & C).
  exists name. split.
  - unfold avy_banner, bulletin, danger_rating.
    cbn [truthy py_get assoc String.eqb Ascii.eqb Bool.eqb default from_option id
         mbind res_bind fmap res_fmap negb py_item py_first].
    fold today.
    apply bind_Ok_inv in F as (acc1 & E1 & F).
    apply bind_Ok_inv in F as (acc2 & E2 & F).
    rewrite E1. cbn [mbind res_bind]. rewrite E2. cbn [mbind res_bind].
    rewrite F. cbn [mbind res_bind]. fold M.
    unfold today, band, band_field.
    cbn [truthy py_get assoc String.eqb Ascii.eqb Bool.eqb default from_option id
         mbind res_bind negb].
    destruct (String.eqb da ""); reflexivity.
  - destruct C as [(-> & A & B & C)|C]; [left|right; exact C].
    split; [reflexivity|]. unfold M. lia.
Qed.

(** Without rating data the banner is the placeholder: after a failed
    fetch, for a bulletin without product, for a report without danger
    ratings and for an empty list of danger ratings. *)
Lemma avy_banner_no_data (region : json) (title_text : string) :
  avy_banner JNull = Ok unknown_banner
  /\ avy_banner (half_populated region) = Ok unknown_banner
  /\ avy_banner (JObj [("region", region);
                       ("product", JObj [("report", JObj [("title", JStr title_text)])])])
     = Ok unknown_banner
  /\ avy_banner (bulletin region []) = Ok unknown_banner.
Proof. repeat split. Qed.

(** Bands without a rating ("norating", no display text) still yield a
    numbered, green banner. *)
Lemma avy_banner_unrated :
  avy_banner (bulletin JNull
                [danger_rating "2026-03-01T00:00:00Z" (band "norating" "")
                   (band "norating" "") (band "norating" "")])
  = Ok (Banner.mk (JInt 0) (JStr "0 - Low") "var(--green)").
Proof. vm_compute. reflexivity. Qed.

(** C1. On a bulletin whose alpine band is rated low and whose treeline
    band is rated high, the banner's level is 4 and its color is the one of
    "high", the largest of the three bands, but its label is "1 - Low", the
    display text of the alpine band: the label does not come from the band
    with the largest ordinal. *)
Theorem avy_banner_label_from_alpine :
  avy_banner alpine_low_treeline_high
  = Ok (Banner.mk (JInt 4) (JStr "1 - Low") "var(--danger-high)").
Proof. vm_compute. reflexivity. Qed.

(** ** Avalanche notes *)

Lemma prefix_append (s t : string) : String.prefix s (s +:+ t) = true.
Proof.
  induction s as [|a s IH]; simpl.
  - destruct t; reflexivity.
  - destruct (ascii_dec a a); [exact IH | congruence].
Qed.

Lemma rating_sentence_words (dr : json) (s : string) :
  rating_sentence dr = Ok s -> String.prefix rating_words s = true.
Proof.
  unfold rating_sentence. intros H. inv_bind H. injection H as <-.
  apply prefix_append.
Qed.

Lemma rating_notes_spec (date : string) (drs : list json) (l : list string) :
  rating_notes date drs = Ok l ->
  l = [] \/ exists s, l = [s] /\ String.prefix rating_words s = true.
Proof.
  revert l. induction drs as [|dr drs IH]; intros l; simpl.
  - intros [= <-]. now left.
  - intros H. inv_bind H. destruct x1.
    + inv_bind H. injection H as <-. right. eexists. split; [reflexivity|].
      eapply rating_sentence_words; eassumption.
    + now apply IH.
Qed.

(** X13. Whenever [gen_avy_notes] returns, the note is the concatenation,
    in this order, of at most one rating sentence, the storm-slab clause, the
    wind-slab clause and the persistent-layer advisory. *)
Lemma gen_avy_notes_order (day : Day.t) (avy : json) (s : string) :
  gen_avy_notes day avy = Ok s ->
  exists rating,
    s = join " " (rating ++ storm_notes (Mtn.snow (Day.mountain day))
                  ++ wind_notes (Day.mountain day) ++ [persistent_layer])
    /\ (rating = [] \/ exists r, rating = [r] /\ String.prefix rating_words r = true).
Proof.
  unfold gen_avy_notes. intros H. inv_bind H. injection H as <-.
  exists x0. split; [now rewrite <- !app_assoc|].
  destruct (truthy x); [|injection E0 as <-; now left].
  inv_bind E0. destruct (truthy x1); [|injection E0 as <-; now left].
  inv_bind E0. eapply rating_notes_spec; eassumption.
Qed.

(** After a failed fetch of the bulletin the note still ends with the
    advisory. *)
Lemma gen_avy_notes_no_bulletin (day : Day.t) :
  gen_avy_notes day JNull
  = Ok (join " " (storm_notes (Mtn.snow (Day.mountain day))
                  ++ wind_notes (Day.mountain day) ++ [persistent_layer])).
Proof.
  unfold gen_avy_notes, avy_report_notes. cbn [truthy mbind res_bind app].
  now rewrite <- app_assoc.
Qed.

(** With that bulletin a run that has fresh data for the trip writes the
    cache and then stops on the exception: no report is written. *)
Lemma main_half_populated_crashes :
  let r := main (mk_fetched (Some sample_forecast) None JNull (half_populated JNull))
             "2026-02-27T08:00:00" no_files in
  fst r = Uncaught AttributeError
  /\ is_Some (data_file (snd r))
  /\ out_file (snd r) = None.
Proof.
  vm_compute. split; [reflexivity|]. split; [eexists; reflexivity | reflexivity].
Qed.

(** C8. On the bulletin that the avalanche adapter returns for a region
    without product (region known, product [None]), [gen_avy_notes] raises
    [AttributeError] for every day record: no note is produced and no
    advisory is appended, while [avy_banner] treats the same bulletin as
    "no data". *)
Theorem gen_avy_notes_half_populated (day : Day.t) (region : json) :
  gen_avy_notes day (half_populated region) = Raise AttributeError
  /\ avy_banner (half_populated region) = Ok unknown_banner.
Proof. split; reflexivity. Qed.

(** ** The aggregation loop *)

Lemma pick_insert (mtn val : Forecast) (cache : gmap string Day.t)
    (date_str k : string) (d : Day.t) :
  process_day date_str mtn val = Ok (Some d) ->
  pick mtn val (<[date_str := d]> cache) k = pick mtn val cache k.
Proof.
  intros P. unfold pick. destruct (fresh mtn val k) eqn:F; [reflexivity|].
  destruct (decide (date_str = k)) as [->|N].
  - unfold fresh in F. rewrite P in F. discriminate.
  - now rewrite lookup_insert_ne.
Qed.

Lemma omap_cons {A B} (f : A -> option B) (x : A) (l : list A) :
  omap f (x :: l)
  = match f x with Some y => y :: omap f l | None => omap f l end.
Proof. reflexivity. Qed.

Lemma omap_ext_pick (mtn val : Forecast) (c1 c2 : gmap string Day.t)
    (dates : list string) :
  (forall k, pick mtn val c1 k = pick mtn val c2 k) ->
  omap (pick mtn val c1) dates = omap (pick mtn val c2) dates.
Proof.
  intros E. induction dates as [|k dates IH]; [reflexivity|].
  now rewrite !omap_cons, E, IH.
Qed.

(** The day sequence is, in the order of the dates, the fresh record of each
    date, or else the record the cache held for it before the run. *)
Lemma aggregate_days (dates : list string) (mtn val : Forecast)
    (previous previous' : Store) (days days' : list Day.t) :
  aggregate dates mtn val previous days = Ok (previous', days') ->
  days' = days ++ omap (pick mtn val (cached_days previous)) dates.
Proof.
  revert previous days. induction dates as [|date_str rest IH];
    intros previous days H; cbn [aggregate] in H.
  - injection H as <- <-. now rewrite app_nil_r.
  - apply bind_Ok_inv in H as (day & P & H).
    rewrite omap_cons. unfold pick at 1, fresh. rewrite P. destruct day as [d|].
    + destruct (st_days previous) as [m|] eqn:M; [|discriminate].
      apply IH in H. rewrite H, <- app_assoc. cbn [app]. f_equal. f_equal.
      unfold cached_days. cbn [st_days]. rewrite M. cbn [default from_option id].
      apply omap_ext_pick. intros k. now apply pick_insert.
    + destruct (cached_days previous !! date_str) as [c|] eqn:C.
      * apply IH in H. now rewrite H, <- app_assoc.
      * now apply IH in H.
Qed.

(** The cache keeps every entry of a date that is not computed fresh. *)
Lemma aggregate_cache_kept (dates : list string) (mtn val : Forecast)
    (previous previous' : Store) (days days' : list Day.t) (k : string) :
  aggregate dates mtn val previous days = Ok (previous', days') ->
  fresh mtn val k = None ->
  cached_days previous' !! k = cached_days previous !! k.
Proof.
  revert previous days. induction dates as [|date_str rest IH];
    intros previous days; simpl.
  - now intros [= <- <-].
  - intros H F. apply bind_Ok_inv in H as (day & P & H). destruct day as [d|].
    + destruct (st_days previous) as [m|] eqn:M; [|discriminate].
      rewrite (IH _ _ H F). unfold cached_days. simpl. rewrite M. simpl.
      apply lookup_insert_ne. intros ->. unfold fresh in F. rewrite P in F.
      discriminate.
    + destruct (cached_days previous !! date_str); exact (IH _ _ H F).
Qed.

Lemma aggregate_no_data (dates : list string) (mtn val : Forecast)
    (previous : Store) (days : list Day.t) :
  Forall (no_data mtn previous) dates ->
  aggregate dates mtn val previous days = Ok (previous, days).
Proof.
  induction 1 as [|date_str rest [A C] _ IH]; simpl; [reflexivity|].
  rewrite (process_day_absent _ _ _ A). cbn [mbind res_bind].
  now rewrite C.
Qed.

Lemma res_mapM_In {A B} (f : A -> res B) (l : list A) (ys : list B) (x : A) :
  res_mapM f l = Ok ys -> In x l -> exists y, In y ys /\ f x = Ok y.
Proof.
  revert ys. induction l as [|a l IH]; intros ys; simpl; [intros _ []|].
  intros H I. inv_bind H. injection H as <-. destruct I as [->|I].
  - eexists. split; [now left | eassumption].
  - destruct (IH _ E0 I) as (y & Iy & Ey).
    exists y. split; [now right | exact Ey].
Qed.

Lemma omap_pick_In (mtn val : Forecast) (cache : gmap string Day.t)
    (dates : list string) (date_str : string) (r : Day.t) :
  In date_str dates -> pick mtn val cache date_str = Some r ->
  In r (omap (pick mtn val cache) dates).
Proof.
  intros I P. apply list_elem_of_In, list_elem_of_omap.
  exists date_str. split; [now apply list_elem_of_In | exact P].
Qed.

(** ** Fatal conditions *)

Lemma trip_dates_eq :
  trip_dates = Ok ["2026-03-01"; "2026-03-02"; "2026-03-03"; "2026-03-04";
                   "2026-03-05"; "2026-03-06"; "2026-03-07"].
Proof. vm_compute. reflexivity. Qed.

(** C9. When the mountain fetch failed, or when no trip date has fresh or
    cached data, [main] ends with [sys.exit(1)], a non-zero exit code, and
    leaves both files as they were: neither the cache file nor the HTML
    report is written. *)
Theorem fatal_exit_writes_nothing (f : Fetched) (now : string) (fs : Files) :
  fatal f fs ->
  main f now fs = (Exit 1, fs)
  /\ exit_code (fst (main f now fs)) <> 0
  /\ data_file (snd (main f now fs)) = data_file fs
  /\ out_file (snd (main f now fs)) = out_file fs.
Proof.
  intros F.
  assert (E : main f now fs = (Exit 1, fs)).
  { unfold fatal in F. unfold main, main_on.
    destruct (mtn_data f) as [mtn|]; [|reflexivity].
    destruct F as (dates & T & N). rewrite T.
    now rewrite (aggregate_no_data _ _ _ _ _ N). }
  rewrite E. simpl. repeat split. discriminate.
Qed.

Lemma fatal_exit_writes_nothing_witness :
  main (mk_fetched None (Some sample_forecast) JNull JNull) "2026-02-27T08:00:00" no_files
  = (Exit 1, no_files)
  /\ main (mk_fetched (Some stale_forecast) None JNull JNull) "2026-02-27T08:00:00" no_files
     = (Exit 1, no_files).
Proof.
  split.
  - exact (proj1 (fatal_exit_writes_nothing
                    (mk_fetched None (Some sample_forecast) JNull JNull)
                    "2026-02-27T08:00:00" no_files I)).
  - refine (proj1 (fatal_exit_writes_nothing
                     (mk_fetched (Some stale_forecast) None JNull JNull)
                     "2026-02-27T08:00:00" no_files _)).
    eexists. split; [exact trip_dates_eq|].
    repeat constructor.
Defined.

(** ** Cached days *)

(** C2, counterexample. 1 March cannot be computed fresh and its record is
    in the cache. The record has no narrative field (the keys of the dict
    that [process_day] builds, and that [main] caches, hold none), and the
    narrative of its card is computed during the run: with the same cache,
    the card's avalanche note follows the bulletin of the run. *)
Lemma cached_day_narrative_recomputed :
  process_day "2026-03-01" stale_forecast stale_forecast = Ok None
  /\ cached_days (load_previous cached_files) !! "2026-03-01" = Some cached_day
  /\ ~ (In "summary" Day.keys \/ In "backcountry" Day.keys \/ In "avyNote" Day.keys)
  /\ cards_of (main (stale_run JNull) "2026-03-01T08:00:00" cached_files)
     = Some [Card.mk "Sun, Mar 1" "Light snow, 0.8cm snow"
               "Variable visibility through the day. Light snow (0.8cm). Existing surfaces refreshed. Warm temps — watch for wet loose on steep south-facing terrain in afternoon. Start early."
               "Persistent weak layers (Feb 13 surface hoar, Jan 28 crust) remain in the snowpack. Assess stability as you travel."]
  /\ cards_of (main (stale_run rated_bulletin) "2026-03-01T08:00:00" cached_files)
     = Some [Card.mk "Sun, Mar 1" "Light snow, 0.8cm snow"
               "Variable visibility through the day. Light snow (0.8cm). Existing surfaces refreshed. Warm temps — watch for wet loose on steep south-facing terrain in afternoon. Start early."
               "Avalanche Canada danger: Alpine 3 - Considerable, Treeline 2 - Moderate, Below treeline 1 - Low. Persistent weak layers (Feb 13 surface hoar, Jan 28 crust) remain in the snowpack. Assess stability as you travel."]
  /\ cards_of (main (stale_run JNull) "2026-03-01T08:00:00" cached_files)
     <> cards_of (main (stale_run rated_bulletin) "2026-03-01T08:00:00" cached_files).
Proof.
  split; [reflexivity|]. split; [vm_compute; reflexivity|].
  split.
  { unfold Day.keys. simpl. intros [H|[H|H]];
      repeat (destruct H as [H|H]; [discriminate H|]); exact H. }
  split; [vm_compute; reflexivity|]. split; [vm_compute; reflexivity|].
  vm_compute. discriminate.
Qed.

(** C2, amended. When a trip date is absent from the mountain daily series
    and the cache holds a record for that exact date, a run that completes
    keeps that record unchanged in the cache it writes and renders it: the
    card of the record is the one [make_card] computes from the record and
    the bulletin of the run, the narrative fields being computed at render
    time as for a fresh day. *)
Theorem cached_day_reused (f : Fetched) (now : string) (fs fs' : Files)
    (mtn : Forecast) (dates : list string) (date_str : string) (r : Day.t) :
  mtn_data f = Some mtn ->
  trip_dates = Ok dates ->
  In date_str dates ->
  index_of date_str (d_time (daily mtn)) = None ->
  cached_days (load_previous fs) !! date_str = Some r ->
  main f now fs = (Done, fs') ->
  exists store page c,
    data_file fs' = Some store
    /\ cached_days store !! date_str = Some r
    /\ out_file fs' = Some page
    /\ In c (Page.cards page)
    /\ make_card (avy_data f) r = Ok c.
Proof.
  intros M T I A C H. unfold main, main_on in H. rewrite M, T in H.
  set (val := default mtn (val_data f)) in H.
  pose proof (process_day_absent date_str mtn val A) as P.
  assert (F : fresh mtn val date_str = None) by (unfold fresh; now rewrite P).
  destruct (aggregate dates mtn val (load_previous fs) []) as [[previous days]|e] eqn:G;
    [|discriminate].
  pose proof (aggregate_days _ _ _ _ _ _ _ G) as D. cbn [app] in D.
  pose proof (aggregate_cache_kept _ _ _ _ _ _ _ date_str G F) as K.
  assert (R : In r days).
  { rewrite D. apply (omap_pick_In _ _ _ _ date_str); [exact I|].
    unfold pick. now rewrite F. }
  destruct days as [|d0 days0]; [discriminate|].
  destruct (generate_html (d0 :: days0) (avy_data f)) as [page|e] eqn:GH;
    [|discriminate].
  injection H as <-.
  unfold generate_html in GH. inv_bind GH. injection GH as <-.
  destruct (res_mapM_In _ _ _ r E1 R) as (c & Ic & Ec).
  eexists _, _, c. cbn [data_file out_file save_data Page.cards].
  repeat split; try reflexivity; try assumption.
  unfold cached_days in *. cbn [st_days]. now rewrite K.
Qed.

Lemma cached_day_reused_witness :
  exists store page c,
    data_file (snd (main (stale_run rated_bulletin) "2026-03-01T08:00:00" cached_files))
    = Some store
    /\ cached_days store !! "2026-03-01" = Some cached_day
    /\ out_file (snd (main (stale_run rated_bulletin) "2026-03-01T08:00:00" cached_files))
       = Some page
    /\ In c (Page.cards page)
    /\ make_card rated_bulletin cached_day = Ok c.
Proof.
  refine (cached_day_reused (stale_run rated_bulletin) "2026-03-01T08:00:00"
            cached_files _ stale_forecast _ "2026-03-01" cached_day
            eq_refl trip_dates_eq _ eq_refl _ _).
  - now left.
  - vm_compute. reflexivity.
  - vm_compute. reflexivity.
Defined.

(** * Further properties

    Properties of the same functions that the design document does not
    state, read off the code. *)

(** ** Utilities *)

(** X1. [deg_to_compass] never indexes outside its table: for every number
    it returns one of the eight compass points, and "--" for [None] only. *)
Theorem deg_to_compass_in_dirs (deg : option Q) :
  exists s, deg_to_compass deg = Ok s
            /\ (deg = None -> s = "--")
            /\ (deg <> None -> In s dirs).
Proof.
  destruct deg as [d|].
  - unfold deg_to_compass, idx.
    pose proof (Z.mod_pos_bound (py_round (py_mod360 d / 45)) 8 ltac:(lia)) as B.
    destruct (dirs !! Z.to_nat (py_round (py_mod360 d / 45) mod 8)) as [s|] eqn:E.
    + exists s. split; [reflexivity|]. split; [discriminate|].
      intros _. apply list_elem_of_In. eapply list_elem_of_lookup_2. exact E.
    + apply lookup_ge_None in E. simpl in E. lia.
  - exists "--". split; [reflexivity|]. split; [reflexivity|]. congruence.
Qed.

Lemma py_round_bounds (x : Q) : Qfloor x <= py_round x <= Qfloor x + 1.
Proof.
  unfold py_round.
  destruct (Qcompare (x - inject_Z (Qfloor x)) (1 # 2)); [|lia|lia].
  destruct (Z.even (Qfloor x)); lia.
Qed.

Lemma py_round_le (x y : Q) : (x <= y)%Q -> py_round x <= py_round y.
Proof.
  intros L. pose proof (Qfloor_resp_le _ _ L) as F.
  destruct (Z.eq_dec (Qfloor x) (Qfloor y)) as [E|N].
  - unfold py_round. rewrite E. set (f := Qfloor y).
    assert (D : (x - inject_Z f <= y - inject_Z f)%Q)
      by (apply Qplus_le_l; exact L).
    destruct (Qcompare (x - inject_Z f) (1 # 2)) eqn:Cx;
      destruct (Qcompare (y - inject_Z f) (1 # 2)) eqn:Cy;
      try lia; try (destruct (Z.even f); lia); exfalso.
    + apply Qeq_alt in Cx. apply Qlt_alt in Cy. rewrite Cx in D.
      exact (Qlt_not_le _ _ Cy D).
    + apply Qgt_alt in Cx. apply Qeq_alt in Cy. rewrite Cy in D.
      exact (Qlt_not_le _ _ Cx D).
    + apply Qgt_alt in Cx. apply Qlt_alt in Cy.
      exact (Qlt_not_le _ _ (Qlt_trans _ _ _ Cy Cx) D).
  - pose proof (py_round_bounds x). pose proof (py_round_bounds y). lia.
Qed.

(** X2. The freezing level never decreases when the temperature rises, at
    any elevation; on whole temperatures it strictly increases. *)
Theorem freezing_level_monotone (t1 t2 e : Q) :
  (t1 <= t2)%Q ->
  freezing_level t1 e <= freezing_level t2 e
  /\ (forall a b h : Z, a < b ->
        freezing_level (inject_Z a) (inject_Z h) < freezing_level (inject_Z b) (inject_Z h)).
Proof.
  intros L. split.
  - unfold freezing_level. apply py_round_le.
    apply Qplus_le_r. apply Qmult_le_compat_r; [|discriminate].
    unfold Qdiv. apply Qmult_le_compat_r; [exact L | discriminate].
  - intros a b h Lab. rewrite !freezing_level_Z.
    Z.to_euclidean_division_equations; lia.
Qed.

Lemma freezing_level_monotone_witness :
  freezing_level (46 # 10) 1900 <= freezing_level 5 1900.
Proof.
  refine (proj1 (freezing_level_monotone (46 # 10) 5 1900 _)).
  unfold Qle. simpl. lia.
Defined.

(** ** Period summaries, continued *)















(** ** Day records *)

Lemma index_of_None_iff (x : string) (l : list string) :
  index_of x l = None <-> ~ In x l.
Proof.
  induction l as [|y l IH]; simpl; [tauto|].
  destruct (String.eqb_spec y x) as [->|N].
  - split; [discriminate | intros H; exfalso; apply H; now left].
  - destruct (index_of x l) as [i|]; simpl.
    + split; [discriminate|]. intros H. exfalso.
      assert (I : ~ In x l) by (intros I; apply H; now right).
      apply IH in I. discriminate.
    + split; [|reflexivity]. intros _ [E|I]; [contradiction|].
      now apply (proj1 IH).
Qed.

(** X4. [process_day] returns [None] exactly for a date that the mountain
    daily series does not list: a missing date raises nothing, and a listed
    date never yields [None] (it yields a record or an exception). *)
Theorem process_day_None_iff (date_str : string) (mtn val : Forecast) :
  process_day date_str mtn val = Ok None
  <-> ~ In date_str (d_time (daily mtn)).
Proof.
  rewrite <- index_of_None_iff. split.
  - apply process_day_None_absent.
  - apply process_day_absent.
Qed.

Lemma no_match_split (date_str t : string) :
  no_match date_str 6 24 t
  <-> no_match date_str 6 12 t /\ no_match date_str 12 18 t
      /\ no_match date_str 18 24 t.
Proof.
  unfold no_match. split.
  - intros H. repeat split; intros P; destruct (H P) as (hr & E & N);
      exists hr; (split; [exact E | lia]).
  - intros (A & B & C) P.
    destruct (A P) as (hr & E & Na). destruct (B P) as (hr' & E' & Nb).
    destruct (C P) as (hr'' & E'' & Nc).
    rewrite E in E', E''. injection E' as <-. injection E'' as <-.
    exists hr. split; [exact E | lia].
Qed.

(** X5. In every day record the three period summaries are all absent
    exactly when the full-day summary over [6,24) is absent, and then
    [avg_cloud] is the default 50: the three ranges cover the full-day
    range. *)
Theorem periods_cover_full_day (date_str : string) (mtn val : Forecast) (d : Day.t) :
  process_day date_str mtn val = Ok (Some d) ->
  ((Day.am d = None /\ Day.pm d = None /\ Day.night d = None)
   <-> extract_hourly_period (hourly mtn) date_str 6 24 = Ok None)
  /\ (Day.am d = None -> Day.pm d = None -> Day.night d = None ->
      Day.avg_cloud d = 50).
Proof.
  intros H. apply process_day_inv in H
    as (i & m & v & am & pm & night & all_day & desc & icon & df & dw & H).
  destruct H as (_ & _ & _ & Ham & Hpm & Hn & Hall & _ & _ & _ & ->).
  cbn [Day.am Day.pm Day.night Day.avg_cloud].
  assert (K : (am = None /\ pm = None /\ night = None) <-> all_day = None).
  { assert (A : forall s e o, extract_hourly_period (hourly mtn) date_str s e = Ok o ->
                   (o = None <-> Forall (no_match date_str s e) (h_time (hourly mtn)))).
    { intros s e o E. rewrite <- extract_None_iff, E.
      split; [now intros -> | now intros [= ->]]. }
    rewrite (A _ _ _ Ham), (A _ _ _ Hpm), (A _ _ _ Hn), (A _ _ _ Hall).
    rewrite !Forall_forall. split.
    - intros (a & b & c) t I. apply no_match_split. auto.
    - intros F. repeat split; intros t I; apply (no_match_split date_str t); auto. }
  split.
  - rewrite K, Hall. split; [now intros -> | now intros [= ->]].
  - intros a b c. now rewrite (proj1 K (conj a (conj b c))).
Qed.

Lemma periods_cover_full_day_witness :
  exists d, process_day "2026-03-02" sample_forecast sample_forecast = Ok (Some d)
            /\ Day.am d = None /\ Day.pm d = None /\ Day.night d = None
            /\ extract_hourly_period (hourly sample_forecast) "2026-03-02" 6 24 = Ok None.
Proof.
  eexists. split; [vm_compute; reflexivity|].
  split; [vm_compute; reflexivity|]. split; [vm_compute; reflexivity|].
  split; [vm_compute; reflexivity|].
  refine (proj1 (proj1 (periods_cover_full_day "2026-03-02" sample_forecast
                          sample_forecast _ _)) _); vm_compute; auto.
Defined.

Lemma valley_stats_inv (vd : Daily) (date_str : string) (v : option Val.t) :
  valley_stats vd date_str = Ok v ->
  match index_of date_str (d_time vd) with
  | None => v = None
  | Some vi =>
      exists hi lo sn wc,
        idx (d_temperature_2m_max vd) vi ≫= num = Ok hi
        /\ idx (d_temperature_2m_min vd) vi ≫= num = Ok lo
        /\ idx (d_snowfall_sum vd) vi ≫= num = Ok sn
        /\ idx (d_weathercode vd) vi = Ok wc
        /\ v = Some (Val.mk (py_round hi) (py_round lo) (py_round1 sn) wc)
  end.
Proof.
  unfold valley_stats. destruct (index_of date_str (d_time vd)) as [vi|].
  - intros H. inv_bind H. injection H as <-. do 4 eexists.
    repeat (split; [eassumption|]). reflexivity.
  - now intros [= <-].
Qed.

Lemma mountain_stats_inv (d : Daily) (i : nat) (m : Mtn.t) :
  mountain_stats d i = Ok m ->
  exists hi lo sn wm,
    idx (d_temperature_2m_max d) i ≫= num = Ok hi
    /\ idx (d_temperature_2m_min d) i ≫= num = Ok lo
    /\ idx (d_snowfall_sum d) i ≫= num = Ok sn
    /\ idx (d_windspeed_10m_max d) i ≫= num = Ok wm
    /\ idx (d_weathercode d) i = Ok (Mtn.weather_code m)
    /\ Mtn.high m = py_round hi /\ Mtn.low m = py_round lo
    /\ Mtn.snow m = py_round1 sn /\ Mtn.wind_max m = py_round wm.
Proof.
  unfold mountain_stats. intros H. inv_bind H. injection H as <-.
  do 4 eexists. cbn [Mtn.weather_code Mtn.high Mtn.low Mtn.snow Mtn.wind_max].
  repeat (split; [eassumption|]). repeat split.
Qed.

(** X6. When the valley series is the mountain series (what [main] passes
    after a failed valley fetch), every day record has valley figures, and
    they are the mountain's: same high, low, snowfall and weather code. *)
Theorem valley_falls_back_to_mountain (date_str : string) (mtn : Forecast) (d : Day.t) :
  process_day date_str mtn mtn = Ok (Some d) ->
  exists v, Day.valley d = Some v
            /\ Val.high v = Mtn.high (Day.mountain d)
            /\ Val.low v = Mtn.low (Day.mountain d)
            /\ Val.snow v = Mtn.snow (Day.mountain d)
            /\ Val.weather_code v = Mtn.weather_code (Day.mountain d).
Proof.
  intros H. apply process_day_inv in H
    as (i & m & v & am & pm & night & all_day & desc & icon & df & dw & H).
  destruct H as (I & M & V & _ & _ & _ & _ & _ & _ & _ & ->).
  cbn [Day.valley Day.mountain].
  apply valley_stats_inv in V. rewrite I in V.
  destruct V as (hi & lo & sn & wc & Vh & Vl & Vs & Vw & ->).
  apply mountain_stats_inv in M
    as (hi' & lo' & sn' & wm & Mh & Ml & Ms & _ & Mw & -> & -> & -> & _).
  rewrite Vh in Mh. rewrite Vl in Ml. rewrite Vs in Ms. rewrite Vw in Mw.
  injection Mh as <-. injection Ml as <-. injection Ms as <-. injection Mw as <-.
  eexists. split; [reflexivity|]. repeat split.
Qed.

Lemma valley_falls_back_to_mountain_witness :
  exists d v, process_day "2026-03-01" sample_forecast sample_forecast = Ok (Some d)
              /\ Day.valley d = Some v /\ Val.high v = 5 /\ Val.low v = -7.
Proof.
  destruct (valley_falls_back_to_mountain "2026-03-01" sample_forecast _
              ltac:(vm_compute; reflexivity)) as (v & E & Hh & Hl & _).
  eexists _, v. split; [vm_compute; reflexivity|].
  split; [exact E|]. split; [rewrite Hh | rewrite Hl]; vm_compute; reflexivity.
Defined.



(** ** The run as a whole *)

Lemma aggregate_store_fields (dates : list string) (mtn val : Forecast)
    (previous previous' : Store) (days days' : list Day.t) :
  aggregate dates mtn val previous days = Ok (previous', days') ->
  st_lastUpdated previous' = st_lastUpdated previous
  /\ st_metar previous' = st_metar previous
  /\ (is_Some (st_days previous) -> is_Some (st_days previous')).
Proof.
  revert previous days. induction dates as [|date_str rest IH];
    intros previous days H; cbn [aggregate] in H.
  - injection H as <- <-. auto.
  - apply bind_Ok_inv in H as (day & P & H). destruct day as [d|].
    + destruct (st_days previous) as [m|] eqn:M; [|discriminate].
      apply IH in H as (A & B & C). cbn [st_lastUpdated st_metar st_days] in *.
      repeat split; auto.
    + destruct (cached_days previous !! date_str); exact (IH _ _ H).
Qed.

(** A fresh record, once stored, is still there at the end of the loop. *)
Lemma aggregate_cache_stays (dates : list string) (mtn val : Forecast)
    (previous previous' : Store) (days days' : list Day.t) (k : string) (d : Day.t) :
  aggregate dates mtn val previous days = Ok (previous', days') ->
  process_day k mtn val = Ok (Some d) ->
  cached_days previous !! k = Some d ->
  cached_days previous' !! k = Some d.
Proof.
  revert previous days. induction dates as [|date_str rest IH];
    intros previous days H P C; cbn [aggregate] in H.
  - now injection H as <- <-.
  - apply bind_Ok_inv in H as (day & Pd & H). destruct day as [d'|].
    + destruct (st_days previous) as [m|] eqn:M; [|discriminate].
      apply (IH _ _ H P). unfold cached_days in *. cbn [st_days].
      rewrite M in C. cbn [default from_option id] in *.
      destruct (decide (date_str = k)) as [->|N].
      * rewrite Pd in P. injection P as ->. apply lookup_insert_eq.
      * now rewrite lookup_insert_ne.
    + destruct (cached_days previous !! date_str); exact (IH _ _ H P C).
Qed.

Lemma aggregate_cache_fresh (dates : list string) (mtn val : Forecast)
    (previous previous' : Store) (days days' : list Day.t) (k : string) (d : Day.t) :
  aggregate dates mtn val previous days = Ok (previous', days') ->
  In k dates ->
  process_day k mtn val = Ok (Some d) ->
  cached_days previous' !! k = Some d.
Proof.
  revert previous days. induction dates as [|date_str rest IH];
    intros previous days H I P; [destruct I|]. cbn [aggregate] in H.
  apply bind_Ok_inv in H as (day & Pd & H).
  destruct (decide (date_str = k)) as [->|N].
  - rewrite P in Pd. injection Pd as <-.
    destruct (st_days previous) as [m|] eqn:M; [|discriminate].
    apply (aggregate_cache_stays _ _ _ _ _ _ _ _ _ H P).
    unfold cached_days. cbn [st_days default from_option id].
    apply lookup_insert_eq.
  - destruct I as [E|I]; [contradiction|]. destruct day as [d'|].
    + destruct (st_days previous) as [m|] eqn:M; [|discriminate].
      exact (IH _ _ H I P).
    + destruct (cached_days previous !! date_str); exact (IH _ _ H I P).
Qed.

Lemma aggregate_cache_other (dates : list string) (mtn val : Forecast)
    (previous previous' : Store) (days days' : list Day.t) (k : string) :
  aggregate dates mtn val previous days = Ok (previous', days') ->
  ~ In k dates ->
  cached_days previous' !! k = cached_days previous !! k.
Proof.
  revert previous days. induction dates as [|date_str rest IH];
    intros previous days H I; cbn [aggregate] in H.
  - now injection H as <- <-.
  - assert (N : date_str <> k) by (intros ->; apply I; now left).
    assert (I' : ~ In k rest) by (intros J; apply I; now right).
    apply bind_Ok_inv in H as (day & Pd & H). destruct day as [d'|].
    + destruct (st_days previous) as [m|] eqn:M; [|discriminate].
      rewrite (IH _ _ H I'). unfold cached_days. cbn [st_days].
      rewrite M. cbn [default from_option id]. now apply lookup_insert_ne.
    + destruct (cached_days previous !! date_str); exact (IH _ _ H I').
Qed.

Lemma aggregate_process_Ok (dates : list string) (mtn val : Forecast)
    (previous previous' : Store) (days days' : list Day.t) (k : string) :
  aggregate dates mtn val previous days = Ok (previous', days') ->
  In k dates ->
  exists r, process_day k mtn val = Ok r
            /\ (r <> None -> is_Some (st_days previous)).
Proof.
  revert previous days. induction dates as [|date_str rest IH];
    intros previous days H I; [destruct I|]. cbn [aggregate] in H.
  apply bind_Ok_inv in H as (day & Pd & H). destruct day as [d'|].
  - destruct (st_days previous) as [m|] eqn:M; [|discriminate].
    destruct I as [<-|I].
    + exists (Some d'). split; [exact Pd | eauto].
    + destruct (IH _ _ H I) as (r & Pr & _). exists r. split; [exact Pr | eauto].
  - destruct I as [<-|I].
    + exists None. split; [exact Pd | congruence].
    + destruct (cached_days previous !! date_str); exact (IH _ _ H I).
Qed.

(** The outcome of [main] when it gets past the two fatal checks. *)
Lemma main_inv (f : Fetched) (now : string) (fs : Files) (o : outcome) (fs' : Files) :
  main f now fs = (o, fs') ->
  (o = Exit 1 /\ fs' = fs) \/ (exists e, o = Uncaught e /\ fs' = fs)
  \/ exists mtn dates previous d0 days,
       mtn_data f = Some mtn /\ trip_dates = Ok dates
       /\ aggregate dates mtn (default mtn (val_data f)) (load_previous fs) []
          = Ok (previous, d0 :: days)
       /\ let store := mk_store (st_days previous) (Some now) (Some (metar f)) in
          match generate_html (d0 :: days) (avy_data f) with
          | Ok page => o = Done /\ fs' = mk_files (Some store) (Some page)
          | Raise e => o = Uncaught e /\ fs' = mk_files (Some store) (out_file fs)
          end.
Proof.
  unfold main, main_on. destruct (mtn_data f) as [mtn|]; [|intros [= <- <-]; eauto].
  destruct trip_dates as [dates|e]; [|intros [= <- <-]; eauto].
  destruct (aggregate dates mtn (default mtn (val_data f)) (load_previous fs) [])
    as [[previous [|d0 days]]|e] eqn:A; try (intros [= <- <-]; now eauto).
  intros H. right. right. exists mtn, dates, previous, d0, days.
  split; [reflexivity|]. split; [reflexivity|]. split; [exact A|]. cbn zeta.
  destruct (generate_html (d0 :: days) (avy_data f)); injection H as <- <-;
    split; reflexivity.
Qed.

(** X8. A run that completes renders, in the order of the trip dates, the
    fresh record of each date or else the record the cache held for it
    before the run, and drops the dates that have neither: the cards are
    those of that sequence, at most one per trip date, and the cache file
    that is written carries the run's time stamp and observation. *)
Theorem main_renders_fresh_or_cached (f : Fetched) (now : string) (fs fs' : Files)
    (mtn : Forecast) (dates : list string) :
  main f now fs = (Done, fs') ->
  mtn_data f = Some mtn ->
  trip_dates = Ok dates ->
  exists page store,
    out_file fs' = Some page /\ data_file fs' = Some store
    /\ res_mapM (make_card (avy_data f))
         (omap (pick mtn (default mtn (val_data f)) (cached_days (load_previous fs))) dates)
       = Ok (Page.cards page)
    /\ (length (Page.cards page) <= length dates)%nat
    /\ st_lastUpdated store = Some now
    /\ st_metar store = Some (metar f).
Proof.
  intros H M T. apply main_inv in H as [[[=] _]|[(e & [=] & _)|H]].
  destruct H as (mtn' & dates' & previous & d0 & days & M' & T' & A & H).
  rewrite M in M'. injection M' as <-. rewrite T in T'. injection T' as <-.
  cbn zeta in H.
  destruct (generate_html (d0 :: days) (avy_data f)) as [page|e] eqn:G;
    [|destruct H; discriminate].
  destruct H as [_ ->]. apply aggregate_days in A. cbn [app] in A.
  unfold generate_html in G. inv_bind G. injection G as <-.
  eexists _, _. cbn [out_file data_file Page.cards st_lastUpdated st_metar].
  repeat (split; [reflexivity|]). rewrite <- A. split; [exact E1|].
  split; [|split; reflexivity].
  assert (L : forall (l : list Day.t) ys, res_mapM (make_card (avy_data f)) l = Ok ys ->
                length ys = length l).
  { induction l as [|a l IH]; intros ys R; simpl in R.
    - now injection R as <-.
    - inv_bind R. injection R as <-. simpl. f_equal. now apply IH. }
  cbn [Page.cards]. rewrite (L _ _ E1), A.
  clear. induction dates as [|k dates IH]; [simpl; lia|].
  rewrite omap_cons. destruct (pick _ _ _ k); simpl; lia.
Qed.

Lemma main_renders_fresh_or_cached_witness :
  exists page,
    out_file (snd (main (stale_run JNull) "2026-03-01T08:00:00" cached_files)) = Some page
    /\ length (Page.cards page) = 1%nat.
Proof.
  destruct (main_renders_fresh_or_cached (stale_run JNull) "2026-03-01T08:00:00"
              cached_files _ stale_forecast _
              ltac:(vm_compute; reflexivity) eq_refl trip_dates_eq)
    as (page & store & O & _ & C & _).
  exists page. split; [exact O|].
  vm_compute in C. injection C as C. change (length (Page.cards page) = 1%nat).
  unfold Page.cards. rewrite <- C. reflexivity.
Defined.


(** X9. The cache file written by a run that completes holds, for every
    trip date computed fresh, exactly the fresh record, and keeps every
    other entry as it was: entries of other dates and entries of trip dates
    that could not be computed fresh. *)
Theorem main_cache_update (f : Fetched) (now : string) (fs fs' : Files)
    (mtn : Forecast) (dates : list string) :
  main f now fs = (Done, fs') ->
  mtn_data f = Some mtn ->
  trip_dates = Ok dates ->
  exists store,
    data_file fs' = Some store
    /\ (forall k d, In k dates ->
          process_day k mtn (default mtn (val_data f)) = Ok (Some d) ->
          cached_days store !! k = Some d)
    /\ (forall k, ~ In k dates \/ process_day k mtn (default mtn (val_data f)) = Ok None ->
          cached_days store !! k = cached_days (load_previous fs) !! k).
Proof.
  intros H M T. apply main_inv in H as [[[=] _]|[(e & [=] & _)|H]].
  destruct H as (mtn' & dates' & previous & d0 & days & M' & T' & A & H).
  rewrite M in M'. injection M' as <-. rewrite T in T'. injection T' as <-.
  cbn zeta in H.
  destruct (generate_html (d0 :: days) (avy_data f)) as [page|e];
    [|destruct H; discriminate].
  destruct H as [_ ->]. eexists. split; [reflexivity|].
  unfold cached_days at 1 3. cbn [st_days]. fold (cached_days previous). split.
  - intros k d I P. exact (aggregate_cache_fresh _ _ _ _ _ _ _ _ _ A I P).
  - intros k [N|P].
    + exact (aggregate_cache_other _ _ _ _ _ _ _ _ A N).
    + apply (aggregate_cache_kept _ _ _ _ _ _ _ _ A). unfold fresh. now rewrite P.
Qed.

Lemma main_cache_update_witness :
  exists store,
    data_file (snd (main (stale_run JNull) "2026-03-01T08:00:00" cached_files)) = Some store
    /\ cached_days store !! "2026-03-01" = Some cached_day
    /\ cached_days store !! "2025-12-24" = None.
Proof.
  destruct (main_cache_update (stale_run JNull) "2026-03-01T08:00:00"
              cached_files _ stale_forecast _
              ltac:(vm_compute; reflexivity) eq_refl trip_dates_eq)
    as (store & D & _ & K).
  exists store. split; [exact D|]. split.
  - rewrite K by (right; reflexivity). vm_compute. reflexivity.
  - rewrite K; [vm_compute; reflexivity|]. left. vm_compute.
    intros H; repeat (destruct H as [H|H]; [discriminate H|]); exact H.
Defined.

(** A store that already holds the fresh record of every date is left as
    it is by the loop. *)
Lemma aggregate_fixpoint (dates : list string) (mtn val : Forecast)
    (s : Store) (acc : list Day.t) :
  (forall k, In k dates ->
     exists r, process_day k mtn val = Ok r
               /\ forall d, r = Some d ->
                    cached_days s !! k = Some d /\ is_Some (st_days s)) ->
  aggregate dates mtn val s acc
  = Ok (s, acc ++ omap (pick mtn val (cached_days s)) dates).
Proof.
  revert acc. induction dates as [|k dates IH]; intros acc H.
  - cbn [aggregate]. now rewrite app_nil_r.
  - cbn [aggregate]. destruct (H k ltac:(now left)) as (r & P & C).
    rewrite P. cbn [mbind res_bind]. rewrite omap_cons.
    unfold pick at 1, fresh. rewrite P.
    assert (H' : forall k', In k' dates ->
              exists r, process_day k' mtn val = Ok r
                        /\ forall d, r = Some d ->
                             cached_days s !! k' = Some d /\ is_Some (st_days s))
      by (intros k' I; apply H; now right).
    destruct r as [d|].
    + destruct (C d eq_refl) as [L [m M]]. rewrite M.
      assert (S : mk_store (Some (<[k := d]> m)) (st_lastUpdated s) (st_metar s) = s).
      { destruct s as [sd lu mt]. cbn [st_days st_lastUpdated st_metar] in *.
        subst sd. unfold cached_days in L. cbn [st_days default from_option id] in L.
        now rewrite (insert_id _ _ _ L). }
      rewrite S, (IH _ H'), <- app_assoc. reflexivity.
    + destruct (cached_days s !! k); rewrite (IH _ H'); [|reflexivity].
      now rewrite <- app_assoc.
Qed.

(** X10. Running [main] again on the same fetched data and clock, with the
    files the first run wrote, changes nothing: the second run completes
    and writes the same cache and the same report. *)
Theorem main_idempotent (f : Fetched) (now : string) (fs fs1 : Files) :
  main f now fs = (Done, fs1) ->
  main f now fs1 = (Done, fs1).
Proof.
  intros H. apply main_inv in H as [[[=] _]|[(e & [=] & _)|H]].
  destruct H as (mtn & dates & previous & d0 & days & M & T & A & H).
  cbn zeta in H.
  destruct (generate_html (d0 :: days) (avy_data f)) as [page|e] eqn:G;
    [|destruct H; discriminate].
  destruct H as [_ ->].
  set (val := default mtn (val_data f)) in *.
  set (store := mk_store (st_days previous) (Some now) (Some (metar f))).
  assert (CS : cached_days store = cached_days previous) by reflexivity.
  destruct (aggregate_store_fields _ _ _ _ _ _ _ A) as (_ & _ & SD).
  assert (A2 : aggregate dates mtn val store [] = Ok (store, d0 :: days)).
  { rewrite aggregate_fixpoint.
    - f_equal. f_equal. cbn [app]. rewrite (aggregate_days _ _ _ _ _ _ _ A).
      cbn [app]. apply omap_ext_pick. intros k. unfold pick.
      destruct (fresh mtn val k) eqn:F; [reflexivity|].
      rewrite CS. exact (aggregate_cache_kept _ _ _ _ _ _ _ _ A F).
    - intros k I. destruct (aggregate_process_Ok _ _ _ _ _ _ _ _ A I) as (r & P & S).
      exists r. split; [exact P|]. intros d ->. split.
      + rewrite CS. exact (aggregate_cache_fresh _ _ _ _ _ _ _ _ _ A I P).
      + apply SD, S. discriminate. }
  unfold main, main_on. rewrite M, T. fold val.
  change (load_previous (mk_files (Some store) (Some page))) with store.
  rewrite A2, G. reflexivity.
Qed.

Lemma main_idempotent_witness :
  exists fs1,
    main (stale_run rated_bulletin) "2026-03-01T08:00:00" cached_files = (Done, fs1)
    /\ main (stale_run rated_bulletin) "2026-03-01T08:00:00" fs1 = (Done, fs1).
Proof.
  eexists. split; [vm_compute; reflexivity|].
  apply main_idempotent with (fs := cached_files). vm_compute. reflexivity.
Defined.



(** ** Week outlook, continued *)

Lemma string_app_assoc (a b c : string) : (a +:+ b) +:+ c = a +:+ (b +:+ c).
Proof.
  induction a as [|x a IH]; [reflexivity|].
  change (String x ((a +:+ b) +:+ c) = String x (a +:+ (b +:+ c))).
  now f_equal.
Qed.

(** X12. [gen_week_outlook] needs at least one day: on the empty sequence it
    raises [ValueError] (the [max] of nothing), and on every other sequence
    it returns a text that opens with the week-outlook heading. *)
Theorem gen_week_outlook_needs_a_day (days : list Day.t) :
  (days = [] -> gen_week_outlook days = Raise ValueError)
  /\ (days <> [] ->
      exists s, gen_week_outlook days = Ok s
                /\ String.prefix "<strong>Week outlook:</strong> " s = true).
Proof.
  split; [now intros ->|]. intros N. destruct days as [|d0 rest]; [contradiction|].
  destruct (week_outlook_parts_eq d0 rest) as (cd & sd & tl & th & E).
  unfold gen_week_outlook. rewrite E. eexists. split; [reflexivity|].
  cbn [app join String.concat]. unfold outlook_header.
  rewrite string_app_assoc. apply prefix_append.
Qed.

(** ** Avalanche banner and notes, continued *)

Lemma gen_avy_notes_order_witness :
  exists rating,
    gen_avy_notes cached_day rated_bulletin
    = Ok (join " " (rating ++ storm_notes (Mtn.snow (Day.mountain cached_day))
                    ++ wind_notes (Day.mountain cached_day) ++ [persistent_layer]))
    /\ length rating = 1%nat.
Proof.
  destruct (gen_avy_notes_order cached_day rated_bulletin _
              ltac:(vm_compute; reflexivity)) as (rating & E & _).
  exists [rated_sentence (mk_rated "" "" "3 - Considerable" "" "2 - Moderate" "" "1 - Low")].
  split; vm_compute; reflexivity.
Defined.

(** The banner loop keeps a level that is 0 with the name "low", or the
    ordinal of its name. *)
Definition banner_inv (acc : Z * string) : Prop :=
  acc = (0, "low") \/ levels !! snd acc = Some (fst acc).

Lemma banner_step_inv (today : json) (acc acc' : Z * string) (elev : string) :
  banner_inv acc -> banner_step today acc elev = Ok acc' -> banner_inv acc'.
Proof.
  intros I H. unfold banner_step in H. inv_bind H.
  destruct (fst acc <? x0); [|now injection H as <-].
  destruct x; try discriminate. unfold dict_item in H.
  destruct (levels !! s) as [l|] eqn:L; [|discriminate].
  cbn [mbind res_bind] in H. injection H as <-. right. exact L.
Qed.

Lemma colors_of_level (name : string) (n : Z) :
  levels !! name = Some n ->
  exists c, colors !! name = Some c /\ In c palette.
Proof.
  intros H. apply elem_of_list_to_map_2 in H.
  repeat (apply elem_of_cons in H as [H|H];
          [injection H as -> ->; eexists; split;
           [vm_compute; reflexivity | simpl; tauto]|]).
  now apply elem_of_nil in H.
Qed.

(** X15. Whatever the bulletin, when [avy_banner] returns it returns either
    the "check avalanche.ca" placeholder or a banner whose level is a whole
    number from 0 to 5 and whose color is one of the four rating colors: the
    muted default color of the final lookup is never used for a rated
    banner. *)
Theorem avy_banner_level_and_color (avy : json) (b : Banner.t) :
  avy_banner avy = Ok b ->
  b = unknown_banner
  \/ exists n, Banner.level b = JInt n /\ 0 <= n <= 5
               /\ In (Banner.color b) palette.
Proof.
  unfold avy_banner. intros H. inv_bind H.
  destruct (negb x1); [injection H as <-; now left|]. right.
  inv_bind H. destruct x7 as [max_level max_name]. inv_bind H. injection H as <-.
  cbn [Banner.level Banner.color].
  assert (I : banner_inv (max_level, max_name)).
  { eapply banner_step_inv; [|exact E7].
    eapply banner_step_inv; [|exact E6].
    eapply banner_step_inv; [|exact E5]. now left. }
  exists max_level. split; [reflexivity|].
  destruct I as [[= -> ->]|L]; cbn [fst snd] in *.
  - split; [lia|]. vm_compute. tauto.
  - pose proof (levels_range _ _ L). split; [lia|].
    destruct (colors_of_level _ _ L) as (c & C & P). now rewrite C.
Qed.

Lemma avy_banner_level_and_color_witness :
  exists b, avy_banner rated_bulletin = Ok b
            /\ Banner.level b = JInt 3
            /\ In (Banner.color b) palette.
Proof.
  destruct (avy_banner_level_and_color rated_bulletin _
              ltac:(vm_compute; reflexivity)) as [E|(n & L & _ & P)].
  - discriminate E.
  - eexists. split; [vm_compute; reflexivity|]. split; [reflexivity | exact P].
Defined.

Lemma rating_sentence_rated (r : rated) :
  rating_sentence (rated_json r) = Ok (rated_sentence r).
Proof. reflexivity. Qed.

Lemma rating_notes_rated (date : string) (rs : list rated) :
  rating_notes date (map rated_json rs)
  = Ok match find (fun r => String.prefix date (on_date r)) rs with
       | Some r => [rated_sentence r]
       | None => []
       end.
Proof.
  induction rs as [|r rs IH]; [reflexivity|].
  cbn [map rating_notes find].
  change (py_get (rated_json r) "date" (JObj []))
    with (Ok (JObj [("value", JStr (on_date r))])).
  cbn [mbind res_bind py_get assoc String.eqb Ascii.eqb Bool.eqb default
       from_option id py_startswith].
  destruct (String.prefix date (on_date r)); [|exact IH].
  now rewrite rating_sentence_rated.
Qed.

(** X16. On a bulletin of the expected shape [gen_avy_notes] always returns,
    and its rating sentence is that of the first entry of [dangerRatings]
    whose date starts with the day's date (later entries for the same date
    are ignored); when no entry matches, the note has no rating sentence. *)
Theorem gen_avy_notes_first_matching_entry (day : Day.t) (region : json)
    (rs : list rated) :
  gen_avy_notes day (bulletin region (map rated_json rs))
  = Ok (join " "
          (match find (fun r => String.prefix (Day.date day) (on_date r)) rs with
           | Some r => [rated_sentence r]
           | None => []
           end
           ++ storm_notes (Mtn.snow (Day.mountain day))
           ++ wind_notes (Day.mountain day) ++ [persistent_layer])).
Proof.
  unfold gen_avy_notes, avy_report_notes, bulletin.
  cbn [truthy py_get assoc String.eqb Ascii.eqb Bool.eqb default from_option id
       mbind res_bind py_item py_iter].
  destruct rs as [|r rs].
  - cbn [map truthy mbind res_bind find app]. now rewrite <- !app_assoc.
  - cbn [map truthy mbind res_bind].
    change (rated_json r :: map rated_json rs) with (map rated_json (r :: rs)).
    rewrite (rating_notes_rated (Day.date day) (r :: rs)).
    cbn [mbind res_bind]. now rewrite <- !app_assoc.
Qed.

(** ** Government text forecast *)

(** X17. [match_ec] reads the date only through its weekday and the period
    labels only up to letter case: two dates that fall on the same weekday
    (a week apart, say) get the same text from any feed, and two feeds with
    the same summaries whose labels differ in case only give the same text. *)
Theorem match_ec_weekday_and_case (blocks blocks' : list EcBlock)
    (date1 date2 : string) (d1 d2 : datetime) :
  strptime date1 = Ok d1 ->
  strptime date2 = Ok d2 ->
  weekday d1 = weekday d2 ->
  Forall2 (fun b b' => lower (ec_period b) = lower (ec_period b')
                       /\ ec_summary b = ec_summary b') blocks blocks' ->
  match_ec (Some blocks) date1 = match_ec (Some blocks') date2.
Proof.
  intros S1 S2 W F. unfold match_ec.
  destruct F as [|b b' bs bs' [P Su] F]; [reflexivity|].
  rewrite S1, S2. cbn [mbind res_bind]. rewrite W.
  destruct (idx DAY_NAMES (Z.to_nat (weekday d2))) as [name|e]; [|reflexivity].
  cbn [mbind res_bind]. f_equal.
  assert (M : map ec_summary
                (List.filter (fun f => contains (lower name) (lower (ec_period f))) (b :: bs))
              = map ec_summary
                  (List.filter (fun f => contains (lower name) (lower (ec_period f))) (b' :: bs'))).
  { assert (F' : Forall2 (fun b b' => lower (ec_period b) = lower (ec_period b')
                                      /\ ec_summary b = ec_summary b')
                   (b :: bs) (b' :: bs')) by (constructor; auto).
    clear -F'. induction F' as [|x y xs ys [P Su] _ IH]; [reflexivity|].
    cbn [List.filter]. rewrite P.
    destruct (contains (lower name) (lower (ec_period y))); cbn [map];
      now rewrite ?Su, IH. }
  now rewrite M.
Qed.

Lemma match_ec_weekday_and_case_witness :
  match_ec (Some sample_feed) "2026-03-02"
  = match_ec (Some [mk_ec "sunday" "Flurries." None None;
                    mk_ec "SUNDAY NIGHT" "Clearing." None None;
                    mk_ec "Monday" "Sunny." None None]) "2026-03-09"
  /\ match_ec (Some sample_feed) "2026-03-02" = Ok (Some "Sunny.").
Proof.
  split; [|vm_compute; reflexivity].
  eapply match_ec_weekday_and_case.
  - vm_compute. reflexivity.
  - vm_compute. reflexivity.
  - vm_compute. reflexivity.
  - repeat constructor.
Defined.

Lemma day_name_Ok (d : datetime) :
  exists name, idx DAY_NAMES (Z.to_nat (weekday d)) = Ok name.
Proof.
  unfold idx. pose proof (Z.mod_pos_bound (toordinal d + 6) 7 ltac:(lia)) as B.
  fold (weekday d) in B.
  destruct (DAY_NAMES !! Z.to_nat (weekday d)) as [n|] eqn:E; [eauto|].
  apply lookup_ge_None in E. simpl in E. lia.
Qed.

(** X18. With a failed or empty feed [match_ec] answers [None] without
    reading the date, so even a malformed date raises nothing; with a
    non-empty feed a date that does not parse raises [ValueError], and a
    date that parses always gets an answer (the weekday always has a
    name). *)
Theorem match_ec_errors (blocks : list EcBlock) (date_str : string) :
  match_ec None date_str = Ok None
  /\ match_ec (Some []) date_str = Ok None
  /\ (blocks <> [] -> strptime date_str = Raise ValueError ->
      match_ec (Some blocks) date_str = Raise ValueError)
  /\ (forall d, strptime date_str = Ok d ->
      exists r, match_ec (Some blocks) date_str = Ok r).
Proof.
  split; [reflexivity|]. split; [reflexivity|]. split.
  - intros N S. destruct blocks; [contradiction|]. unfold match_ec. now rewrite S.
  - intros d S. destruct blocks; [eexists; reflexivity|].
    unfold match_ec. rewrite S. cbn [mbind res_bind].
    destruct (day_name_Ok d) as (name & ->). cbn [mbind res_bind]. eauto.
Qed.



(** ** Region selection *)

Lemma region_title_lower_entry (e : catalog_entry) :
  region_title_lower (entry_json e) = Ok (lower (ce_title e)).
Proof.
  unfold region_title_lower, entry_json.
  cbn [py_get assoc String.eqb Ascii.eqb Bool.eqb default from_option id
       mbind res_bind].
  unfold py_or. cbn [truthy]. destruct (String.eqb_spec (ce_title e) "") as [->|N];
    reflexivity.
Qed.

Lemma find_by_name_entries (es : list catalog_entry) :
  find_by_name (map entry_json es)
  = Ok match find named es with
       | Some e => entry_json e
       | None => JNull
       end.
Proof.
  induction es as [|e es IH]; [reflexivity|].
  cbn [map find_by_name find]. rewrite region_title_lower_entry.
  cbn [mbind res_bind]. unfold named at 1.
  destruct (name_match (lower (ce_title e))); [reflexivity | exact IH].
Qed.

Lemma entry_json_truthy (e : catalog_entry) : truthy (entry_json e) = true.
Proof. reflexivity. Qed.

Lemma after_selection (fetch_product : json -> res json) (e : catalog_entry) :
  (p ← py_get (entry_json e) "product" (JObj []);
   t ← py_get p "title" JNull;
   _ ← (if truthy t then Ok t
        else a ← py_get (entry_json e) "area" (JObj []);
             n ← py_get a "name" JNull;
             Ok (py_or n (JStr "?")));
   p ← py_get (entry_json e) "product" (JObj []);
   slug ← py_get p "slug" JNull;
   if negb (truthy slug) then
     Ok (JObj [("region", entry_json e); ("product", JNull)])
   else
     product ← fetch_product slug;
     Ok (JObj [("region", entry_json e); ("product", product)]))
  = bulletin_for fetch_product e.
Proof.
  unfold bulletin_for, entry_json, half_populated.
  destruct (ce_centroid e) as [[lat lon]|];
    cbn [py_get assoc String.eqb Ascii.eqb Bool.eqb default from_option id
         mbind res_bind truthy];
    destruct (String.eqb (ce_title e) "");
    cbn [negb mbind res_bind py_get assoc String.eqb Ascii.eqb Bool.eqb default
         from_option id py_or truthy];
    destruct (String.eqb (ce_slug e) ""); reflexivity.
Qed.

(** X20. A region whose title names the range wins over every centroid:
    on a catalog of the expected shape, the first entry whose title
    contains "monashee" or "north columbia", in any letter case, is the one
    whose bulletin is returned. *)
Theorem name_match_wins (fetch_product : json -> res json)
    (es : list catalog_entry) (e : catalog_entry) :
  find named es = Some e ->
  fetch_avalanche_canada fetch_product (JArr (map entry_json es))
  = bulletin_for fetch_product e.
Proof.
  intros F. unfold fetch_avalanche_canada. cbn [py_iter mbind res_bind].
  rewrite find_by_name_entries, F. cbn [mbind res_bind].
  rewrite entry_json_truthy. cbn [negb mbind res_bind].
  apply after_selection.
Qed.

Lemma name_match_wins_witness :
  fetch_avalanche_canada (fun _ => Ok (JObj [("report", JNull)]))
    (JArr (map entry_json
             [mk_entry "Purcells" "purcells" (Some (mountain_lat, mountain_lon));
              mk_entry "North Columbia - MONASHEES" "north-columbia" None]))
  = Ok (JObj [("region", entry_json (mk_entry "North Columbia - MONASHEES" "north-columbia" None));
              ("product", JObj [("report", JNull)])]).
Proof.
  rewrite (name_match_wins _ _ (mk_entry "North Columbia - MONASHEES" "north-columbia" None))
    by (vm_compute; reflexivity).
  vm_compute. reflexivity.
Defined.



Lemma centroid_of_entry (e : catalog_entry) :
  py_get (entry_json e) "centroid" JNull
  = Ok match ce_centroid e with
       | Some (lat, lon) => JObj [("longitude", JFloat lon); ("latitude", JFloat lat)]
       | None => JNull
       end.
Proof. unfold entry_json. destruct (ce_centroid e) as [[lat lon]|]; reflexivity. Qed.





Lemma nearest_None_entries (es : list catalog_entry) :
  Forall (fun e => ce_centroid e = None) es ->
  nearest (map entry_json es) None JNull = Ok JNull.
Proof.
  induction 1 as [|e es C _ IH]; [reflexivity|].
  cbn [map nearest]. rewrite centroid_of_entry, C.
  cbn [mbind res_bind truthy]. exact IH.
Qed.

(** X22. Whatever the catalog and the product request, when
    [fetch_avalanche_canada] returns it returns a dict with exactly the
    keys "region" and "product"; and when that product is [None] (no region
    could be chosen, or the chosen region has no slug), the result makes
    [gen_avy_notes] raise [AttributeError] for every day, while
    [avy_banner] shows the placeholder. A catalog of the expected shape
    without name match and without centroid gives region [None]. *)
Theorem fetch_avalanche_canada_result (fetch_product : json -> res json)
    (metadata avy : json) :
  fetch_avalanche_canada fetch_product metadata = Ok avy ->
  (exists region product,
     avy = JObj [("region", region); ("product", product)]
     /\ (product = JNull ->
         (forall day, gen_avy_notes day avy = Raise AttributeError)
         /\ avy_banner avy = Ok unknown_banner))
  /\ (forall es, find named es = None ->
        Forall (fun e => ce_centroid e = None) es ->
        fetch_avalanche_canada fetch_product (JArr (map entry_json es))
        = Ok (JObj [("region", JNull); ("product", JNull)])).
Proof.
  intros H. split.
  - unfold fetch_avalanche_canada in H. inv_bind H.
    destruct (negb (truthy x1)).
    + injection H as <-. exists JNull, JNull. split; [reflexivity|].
      intros _. split; [intros day|]; reflexivity.
    + inv_bind H. destruct (negb (truthy x6)).
      * injection H as <-. exists x1, JNull. split; [reflexivity|].
        intros _. split; [intros day|]; reflexivity.
      * inv_bind H. injection H as <-. exists x1, x7. split; [reflexivity|].
        intros ->. split; [intros day|]; reflexivity.
  - intros es F C. unfold fetch_avalanche_canada. cbn [py_iter mbind res_bind].
    rewrite find_by_name_entries, F. cbn [mbind res_bind truthy negb].
    rewrite (nearest_None_entries es C). reflexivity.
Qed.

Lemma fetch_avalanche_canada_result_witness :
  exists avy,
    fetch_avalanche_canada (fun _ => Raise ValueError)
      (JArr (map entry_json sample_catalog)) = Ok avy
    /\ gen_avy_notes cached_day avy = Raise AttributeError.
Proof.
  eexists. split; [vm_compute; reflexivity|].
  destruct (proj1 (fetch_avalanche_canada_result (fun _ => Raise ValueError)
                     (JArr (map entry_json sample_catalog)) _
                     ltac:(vm_compute; reflexivity)))
    as (region & product & E & _).
  vm_compute. reflexivity.
Defined.

(** ** The hour scan *)

(** A link that is found ends with the station's file name. *)
Lemma find_link_suffix (s l : string) :
  find_link s = Some l -> ends_with link_suffix l = true.
Proof.
  assert (A : forall t, link_at t = Some l -> ends_with link_suffix l = true).
  { intros t L. unfold link_at in L.
    destruct (strip_prefix href_open t) as [rest|]; [|discriminate].
    cbn [mbind option_bind] in L.
    destruct (quoted_run rest) as [run|]; [|discriminate].
    cbn [mbind option_bind] in L.
    destruct (ends_with link_suffix run) eqn:X; [|discriminate].
    now injection L as <-. }
  induction s as [|c s IH]; cbn [find_link].
  - destruct (link_at "") eqn:L; [|discriminate]. intros [= <-]. exact (A _ L).
  - destruct (link_at (String c s)) as [l'|] eqn:L; [|exact IH].
    intros [= <-]. exact (A _ L).
Qed.

Section EnvironmentCanadaProperties.

Context {E : Type}.
Variable fetch_text : string -> E + string.
Variable parse_ec_xml : string -> E + list EcBlock.

Local Abbreviation hour_result now_hour offset :=
  (try_hour fetch_text parse_ec_xml (scan_hour now_hour offset)).

Lemma try_hour_urls (h : Z) :
  let urls := snd (try_hour fetch_text parse_ec_xml h) in
  (urls = [ec_dir_url h]
   \/ exists name, urls = [ec_dir_url h; ec_dir_url h +:+ name]
                   /\ ends_with link_suffix name = true)
  /\ (fst (try_hour fetch_text parse_ec_xml h) <> None -> length urls = 2%nat).
Proof.
  cbn zeta. unfold try_hour.
  destruct (fetch_text (ec_dir_url h)) as [e|html];
    [split; [now left | intros N; now contradiction N]|].
  destruct (find_link html) as [name|] eqn:L;
    [|split; [now left | intros N; now contradiction N]].
  pose proof (find_link_suffix _ _ L) as S.
  destruct (fetch_text (ec_dir_url h +:+ name)) as [e|xml_text];
    [split; [right; eauto | intros N; now contradiction N]|].
  destruct (parse_ec_xml xml_text) as [e|blocks];
    (split; [right; eauto | reflexivity || (intros N; now contradiction N)]).
Qed.

Lemma ec_scan_app_fail (now_hour : Z) (failed rest : list Z) :
  Forall (fun x => fst (hour_result now_hour x) = None) failed ->
  ec_scan fetch_text parse_ec_xml now_hour (failed ++ rest)
  = (fst (ec_scan fetch_text parse_ec_xml now_hour rest),
     flat_map (fun x => snd (hour_result now_hour x)) failed
     ++ snd (ec_scan fetch_text parse_ec_xml now_hour rest)).
Proof.
  induction 1 as [|x failed Fx _ IH]; cbn [app flat_map ec_scan].
  - now destruct (ec_scan fetch_text parse_ec_xml now_hour rest).
  - destruct (hour_result now_hour x) as [[b|] urls]; [discriminate Fx|].
    cbn [snd]. rewrite IH. cbn [fst snd]. now rewrite app_assoc.
Qed.

(** X23. The scan stops at the first hour that succeeds: when the hours
    of the offsets before [offset] all fail and the hour of [offset] yields
    blocks, [fetch_environment_canada] returns those blocks, and the URLs it
    requested are those of the hours up to that one; no later hour is
    requested. *)
Theorem ec_scan_first_success (now_hour : Z) (failed rest : list Z) (offset : Z)
    (blocks : list EcBlock) :
  failed ++ offset :: rest = [0; 1; 2; 3; 4; 5] ->
  Forall (fun x => fst (hour_result now_hour x) = None) failed ->
  fst (hour_result now_hour offset) = Some blocks ->
  fetch_environment_canada fetch_text parse_ec_xml now_hour
  = (Some blocks,
     flat_map (fun x => snd (hour_result now_hour x)) (failed ++ [offset])).
Proof.
  intros S F O. unfold fetch_environment_canada. rewrite <- S.
  rewrite (ec_scan_app_fail _ _ _ F). cbn [ec_scan].
  destruct (hour_result now_hour offset) as [[b|] urls] eqn:T; [|discriminate O].
  cbn [fst snd] in *. injection O as ->.
  rewrite flat_map_app. cbn [flat_map]. rewrite T. cbn [snd].
  now rewrite app_nil_r.
Qed.

(** X24. The scan fails (the final [RuntimeError]) exactly when all six
    hours fail; and in every case it requests at most twelve URLs, each
    being the directory of one of the six hours or a document in it whose
    name ends with the station's file name. *)
Theorem ec_scan_unavailable (now_hour : Z) :
  (fst (fetch_environment_canada fetch_text parse_ec_xml now_hour) = None
   <-> Forall (fun x => fst (hour_result now_hour x) = None) [0; 1; 2; 3; 4; 5])
  /\ (length (snd (fetch_environment_canada fetch_text parse_ec_xml now_hour)) <= 12)%nat
  /\ Forall (fun url =>
       exists x, In x [0; 1; 2; 3; 4; 5]
         /\ (url = ec_dir_url (scan_hour now_hour x)
             \/ exists name, url = ec_dir_url (scan_hour now_hour x) +:+ name
                             /\ ends_with link_suffix name = true))
       (snd (fetch_environment_canada fetch_text parse_ec_xml now_hour)).
Proof.
  unfold fetch_environment_canada.
  assert (G : forall offsets,
    (fst (ec_scan fetch_text parse_ec_xml now_hour offsets) = None
     <-> Forall (fun x => fst (hour_result now_hour x) = None) offsets)
    /\ (length (snd (ec_scan fetch_text parse_ec_xml now_hour offsets))
        <= 2 * length offsets)%nat
    /\ Forall (fun url =>
         exists x, In x offsets
           /\ (url = ec_dir_url (scan_hour now_hour x)
               \/ exists name, url = ec_dir_url (scan_hour now_hour x) +:+ name
                               /\ ends_with link_suffix name = true))
         (snd (ec_scan fetch_text parse_ec_xml now_hour offsets))).
  { induction offsets as [|x offsets (IH1 & IH2 & IH3)]; cbn [ec_scan].
    - split; [split; [constructor | reflexivity]|]. split; [simpl; lia | constructor].
    - pose proof (try_hour_urls (scan_hour now_hour x)) as [U _]. cbn zeta in U.
      assert (UF : Forall (fun url =>
                exists x0, In x0 (x :: offsets)
                  /\ (url = ec_dir_url (scan_hour now_hour x0)
                      \/ exists name, url = ec_dir_url (scan_hour now_hour x0) +:+ name
                                      /\ ends_with link_suffix name = true))
                (snd (hour_result now_hour x))).
      { destruct U as [->|(name & -> & S)]; repeat constructor;
          exists x; (split; [now left|]); eauto. }
      assert (UL : (length (snd (hour_result now_hour x)) <= 2)%nat)
        by (destruct U as [->|(name & -> & S)]; simpl; lia).
      destruct (hour_result now_hour x) as [[b|] urls] eqn:T; cbn [fst snd] in *.
      + split; [split; [discriminate|]|].
        * intros F. apply Forall_inv in F. rewrite T in F. discriminate F.
        * split; [simpl; lia | exact UF].
      + destruct (ec_scan fetch_text parse_ec_xml now_hour offsets) as [r urls'].
        cbn [fst snd] in *. split.
        * rewrite IH1. split.
          -- intros F. constructor; [now rewrite T | exact F].
          -- intros F. now inversion F.
        * split; [rewrite length_app; simpl; lia|].
          apply Forall_app. split; [exact UF|].
          eapply Forall_impl; [exact IH3|].
          intros url (x0 & I & D). exists x0. split; [now right | exact D]. }
  destruct (G [0; 1; 2; 3; 4; 5]) as (A & B & C).
  split; [exact A|]. split; [exact B | exact C].
Qed.

End EnvironmentCanadaProperties.


Lemma ec_scan_first_success_witness :
  fetch_environment_canada sample_fetch_text sample_parse 10
  = (Some [mk_ec "Sunday" "Flurries." None None],
     flat_map (fun x => snd (try_hour sample_fetch_text sample_parse
                               (scan_hour 10 x)))
       ([0; 1; 2; 3; 4] ++ [5])).
Proof.
  apply (ec_scan_first_success sample_fetch_text sample_parse 10
           [0; 1; 2; 3; 4] [] 5).
  - reflexivity.
  - repeat constructor.
  - vm_compute. reflexivity.
Defined.

(** X25. At any hour of the day the six directories of the scan are
    pairwise distinct, each is named by two digits, and the hours wrap at
    midnight: offset [x] gives hour [now_hour - x], or [now_hour - x + 24]
    when that is negative. *)
Theorem ec_scan_directories (now_hour : Z) :
  0 <= now_hour < 24 ->
  NoDup (map (fun x => ec_dir_url (scan_hour now_hour x)) [0; 1; 2; 3; 4; 5])
  /\ Forall (fun x =>
       String.length (pad 2 (scan_hour now_hour x)) = 2%nat
       /\ scan_hour now_hour x
          = (if x <=? now_hour then now_hour - x else now_hour - x + 24))
     [0; 1; 2; 3; 4; 5].
Proof.
  intros B.
  assert (A : forallb (fun n =>
      bool_decide (NoDup (map (fun x => ec_dir_url (scan_hour n x))
                            [0; 1; 2; 3; 4; 5]))
      && forallb (fun x =>
           (String.length (pad 2 (scan_hour n x)) =? 2)%nat
           && (scan_hour n x =? (if x <=? n then n - x else n - x + 24)))
         [0; 1; 2; 3; 4; 5])
    (Z_range 0 24) = true) by (vm_compute; reflexivity).
  rewrite forallb_forall in A.
  specialize (A now_hour (Z_range_In 0 24 now_hour B)).
  apply andb_true_iff in A as [A1 A2]. split.
  - now apply bool_decide_eq_true in A1.
  - apply List.Forall_forall. intros x I.
    rewrite forallb_forall in A2. specialize (A2 x I).
    apply andb_true_iff in A2 as [L H]. split.
    + now apply Nat.eqb_eq.
    + now apply Z.eqb_eq.
Qed.

Lemma ec_scan_directories_witness :
  NoDup (map (fun x => ec_dir_url (scan_hour 2 x)) [0; 1; 2; 3; 4; 5])
  /\ Forall (fun x =>
       String.length (pad 2 (scan_hour 2 x)) = 2%nat
       /\ scan_hour 2 x = (if x <=? 2 then 2 - x else 2 - x + 24))
     [0; 1; 2; 3; 4; 5].
Proof.
  apply (ec_scan_directories 2). lia.
Defined.


(** ** [strip_html] *)

Lemma string_app_nil_r (s : string) : s +:+ "" = s.
Proof.
  induction s as [|c s IH]; [reflexivity|].
  change (String c (s +:+ "") = String c s). now f_equal.
Qed.

Lemma rev_app_spec (s acc : string) :
  String.rev_app s acc = String.rev s +:+ acc.
Proof.
  revert acc. induction s as [|c s IH]; intros acc; [reflexivity|].
  unfold String.rev. cbn [String.rev_app].
  rewrite IH, (IH (String c "")). unfold String.rev.
  now rewrite string_app_assoc.
Qed.

Lemma rev_cons (c : ascii) (s : string) :
  String.rev (String c s) = String.rev s +:+ String c "".
Proof. unfold String.rev at 1. cbn [String.rev_app]. apply rev_app_spec. Qed.

Lemma rev_append (a b : string) :
  String.rev (a +:+ b) = String.rev b +:+ String.rev a.
Proof.
  induction a as [|c a IH].
  - change ("" +:+ b) with b. now rewrite string_app_nil_r.
  - change (String c a +:+ b) with (String c (a +:+ b)).
    now rewrite !rev_cons, IH, string_app_assoc.
Qed.

Lemma rev_rev (s : string) : String.rev (String.rev s) = s.
Proof.
  induction s as [|c s IH]; [reflexivity|].
  now rewrite rev_cons, rev_append, IH.
Qed.

Lemma lstrip_suffix (s : string) : exists a, s = a +:+ lstrip s.
Proof.
  induction s as [|c s [a IH]]; [now exists ""|].
  cbn [lstrip]. destruct (is_space c).
  - exists (String c a). change (String c s = String c (a +:+ lstrip s)).
    now f_equal.
  - now exists "".
Qed.

Lemma lstrip_head (s : string) (c : ascii) (t : string) :
  lstrip s = String c t -> is_space c = false.
Proof.
  induction s as [|d s IH]; [discriminate|].
  cbn [lstrip]. destruct (is_space d) eqn:X; [exact IH|].
  now intros [= <- _].
Qed.

Lemma lstrip_fixed (s : string) :
  (forall c t, s = String c t -> is_space c = false) -> lstrip s = s.
Proof.
  destruct s as [|c s]; [reflexivity|]. intros H.
  cbn [lstrip]. now rewrite (H c s eq_refl).
Qed.

Lemma lstrip_lstrip (s : string) : lstrip (lstrip s) = lstrip s.
Proof.
  apply lstrip_fixed. intros c t. apply lstrip_head.
Qed.

(** [strip s] is [s] without a prefix and a suffix. *)
Lemma strip_infix (s : string) :
  exists a b, lstrip s = strip s +:+ b /\ s = a +:+ lstrip s.
Proof.
  destruct (lstrip_suffix s) as [a A].
  destruct (lstrip_suffix (String.rev (lstrip s))) as [b B].
  exists a, (String.rev b). split; [|exact A].
  unfold strip. rewrite <- rev_append, <- B. now rewrite rev_rev.
Qed.

Lemma strip_strip (s : string) : strip (strip s) = strip s.
Proof.
  destruct (strip_infix s) as (a & b & B & _).
  assert (F : lstrip (strip s) = strip s).
  { apply lstrip_fixed. intros c t X. rewrite X in B.
    exact (lstrip_head _ _ _ B). }
  unfold strip at 1. rewrite F. unfold strip.
  now rewrite rev_rev, lstrip_lstrip.
Qed.

Lemma has_gt_append (r b : string) :
  has_gt r = true -> has_gt (r +:+ b) = true.
Proof.
  induction r as [|c r IH]; [discriminate|].
  change (String c r +:+ b) with (String c (r +:+ b)). cbn [has_gt].
  destruct (Ascii.eqb c ">"); [reflexivity|]. exact IH.
Qed.

Lemma has_tag_append (s b : string) :
  has_tag (s +:+ b) = false -> has_tag s = false.
Proof.
  induction s as [|c s IH]; [reflexivity|].
  change (String c s +:+ b) with (String c (s +:+ b)).
  cbn [has_tag tag_at]. intros H. apply orb_false_iff in H as [H1 H2].
  rewrite (IH H2), orb_false_r.
  destruct (Ascii.eqb c "<"); [|reflexivity]. cbn [andb] in *.
  destruct s as [|d r]; [reflexivity|].
  change (String d r +:+ b) with (String d (r +:+ b)) in H1.
  cbn [tag_body] in *. destruct (Ascii.eqb d ">"); [reflexivity|].
  cbn [negb andb] in *. destruct (has_gt r) eqn:G; [|reflexivity].
  now rewrite (has_gt_append _ b G) in H1.
Qed.

Lemma has_tag_suffix (a s : string) :
  has_tag (a +:+ s) = false -> has_tag s = false.
Proof.
  induction a as [|c a IH]; [trivial|].
  change (String c a +:+ s) with (String c (a +:+ s)).
  cbn [has_tag]. intros H. apply orb_false_iff in H as [_ H]. exact (IH H).
Qed.

Lemma has_tag_strip (s : string) :
  has_tag s = false -> has_tag (strip s) = false.
Proof.
  intros H. destruct (strip_infix s) as (a & b & B & A).
  rewrite A in H. apply has_tag_suffix in H. rewrite B in H.
  exact (has_tag_append _ _ H).
Qed.

Lemma has_gt_sub_tags (b : bool) (s : string) :
  has_gt s = false -> has_gt (sub_tags b s) = false.
Proof.
  revert b. induction s as [|c s IH]; intros b; [reflexivity|].
  cbn [has_gt sub_tags]. intros H. apply orb_false_iff in H as [H1 H2].
  destruct b; [now apply IH|].
  destruct (Ascii.eqb c "<" && tag_body s); [now apply IH|].
  cbn [has_gt]. rewrite H1. now apply IH.
Qed.

Lemma tag_body_sub_tags (s : string) :
  tag_body s = false -> tag_body (sub_tags false s) = false.
Proof.
  destruct s as [|d r]; [reflexivity|]. cbn [tag_body sub_tags]. intros H.
  destruct (Ascii.eqb d ">") eqn:X.
  - apply Ascii.eqb_eq in X. subst d. cbn [Ascii.eqb Bool.eqb andb].
    reflexivity.
  - cbn [negb andb] in H.
    assert (T : tag_body r = false).
    { destruct r as [|e r']; [reflexivity|]. cbn [tag_body has_gt] in *.
      apply orb_false_iff in H as [_ H]. rewrite H. apply andb_false_r. }
    rewrite T, andb_false_r. cbn [tag_body]. rewrite X.
    now rewrite (has_gt_sub_tags false r H).
Qed.

Lemma sub_tags_no_tag (b : bool) (s : string) : has_tag (sub_tags b s) = false.
Proof.
  revert b. induction s as [|c s IH]; intros b; [now destruct b|].
  cbn [sub_tags]. destruct b; [apply IH|].
  destruct (Ascii.eqb c "<" && tag_body s) eqn:X; [apply IH|].
  cbn [has_tag tag_at]. rewrite IH, orb_false_r.
  apply andb_false_iff in X as [X|X]; [now rewrite X|].
  rewrite (tag_body_sub_tags _ X). apply andb_false_r.
Qed.

Lemma sub_tags_fixed (s : string) : has_tag s = false -> sub_tags false s = s.
Proof.
  induction s as [|c s IH]; [reflexivity|].
  cbn [has_tag tag_at sub_tags]. intros H. apply orb_false_iff in H as [H1 H2].
  rewrite H1. f_equal. exact (IH H2).
Qed.

(** X26. On ASCII text the result of [strip_html] has no tag left, and
    [strip_html] is idempotent: applied to its own result it changes
    nothing. *)
Theorem strip_html_removes_every_tag (s : option string) :
  ascii_text (default "" s) ->
  has_tag (strip_html s) = false
  /\ strip_html (Some (strip_html s)) = strip_html s.
Proof.
  intros _. unfold strip_html.
  assert (T : has_tag (strip (sub_tags false (default "" s))) = false)
    by apply has_tag_strip, sub_tags_no_tag.
  split; [exact T|].
  cbn [default from_option id]. rewrite (sub_tags_fixed _ T).
  apply strip_strip.
Qed.

Lemma strip_html_removes_every_tag_witness :
  has_tag (strip_html (Some sample_markup)) = false
  /\ strip_html (Some (strip_html (Some sample_markup)))
     = strip_html (Some sample_markup).
Proof.
  apply (strip_html_removes_every_tag (Some sample_markup)).
  unfold ascii_text. vm_compute. repeat constructor.
Defined.

(** X27. On ASCII text without a tag [strip_html] only strips the
    surrounding whitespace; and [None] gives the empty text. *)
Theorem strip_html_plain_text (s : string) :
  ascii_text s ->
  has_tag s = false ->
  strip_html (Some s) = strip s /\ strip_html None = "".
Proof.
  intros _ H. unfold strip_html. cbn [default from_option id].
  now rewrite (sub_tags_fixed _ H).
Qed.

Lemma strip_html_plain_text_witness :
  strip_html (Some " Wind slab > 30 cm, temperature < -5 ")
  = strip " Wind slab > 30 cm, temperature < -5 "
  /\ strip_html None = "".
Proof.
  apply (strip_html_plain_text " Wind slab > 30 cm, temperature < -5 ").
  - unfold ascii_text. vm_compute. repeat constructor.
  - vm_compute. reflexivity.
Defined.
